(** * Genshin Impact Tracker: the record store of [main.py]

    A shallow embedding of the class [ItemTracker] (file [main.py]) and the
    properties of its operations: [add_item], [mark_collected],
    [get_items_by_region], [get_collected_stats], [save_data], [load_data].

    Conventions of the embedding.
    - A Python [str] is a [string]; a Python [float] is a primitive binary64
      [float], so that subtraction, [abs] and [<] are the IEEE operations
      Python performs; a Python [int] is a [Z]; a Python [bool] is a [bool].
    - An item is the dict built by [add_item]; its eight fixed keys make it a
      record. The dicts of [self.items] are pairwise distinct objects
      ([add_item] and [json.load] build a fresh one for each position), so an
      assignment to a key of one of them changes one position of the list; a
      list of record values, updated at an index, is that store.
    - [load_data] binds [self.items] to whatever the file holds under the key
      [items]; a value that is not a list of such dicts leaves the data model
      and is reported as [Loaded_foreign].
    - [str.lower] is a function of the Python runtime (it follows the Unicode
      database); the operations take it as the section variable [lower], and
      [ascii_lower] is its restriction to ASCII text, used on concrete data.
    - [datetime.now().strftime(...)] is the argument [now] of the operations
      that read the clock.
    - Console output ([print]) is not part of the model. *)

From Stdlib Require Import ZArith Floats Ascii String List.
From stdpp Require Import base option list strings gmap.
Import ListNotations.

Set Warnings "-inexact-float,-register-all".

(** ** Data model *)

(** An item: the dict literal of [add_item] (main.py, lines 64-73). *)
Record item : Type := Item {
  name : string;
  region : string;
  x : float;
  y : float;
  type : string;
  collected : bool;
  date_added : string;
  notes : string
}.

(** The tracker object: the three attributes set by [__init__]. *)
Record ItemTracker : Type := Tracker {
  data_file : string;
  items : list item;
  regions : list string
}.

(** The assignments [self.items = ...], [item['collected'] = ...] and
    [item['notes'] = ...]. *)
Definition set_items (l : list item) (t : ItemTracker) : ItemTracker :=
  Tracker (data_file t) l (regions t).

Definition set_collected (c : bool) (it : item) : item :=
  Item (name it) (region it) (x it) (y it) (type it) c (date_added it) (notes it).

Definition set_notes (n : string) (it : item) : item :=
  Item (name it) (region it) (x it) (y it) (type it) (collected it) (date_added it) n.

(** The list of known regions of [__init__]. *)
Definition known_regions : list string :=
  ["Mondstadt"; "Liyue"; "Inazuma"; "Sumeru"; "Fontaine"; "Natlan"; "Snezhnaya"]%string.

(** The literal [0.1] of [add_item]: the binary64 value nearest to one tenth. *)
Definition tolerance : float := 0.1%float.

(** [abs(a - b) < 0.1] on Python floats. *)
Definition within_tolerance (a b : float) : bool :=
  PrimFloat.ltb (PrimFloat.abs (PrimFloat.sub a b)) tolerance.

(** [str.lower] on ASCII text: the letters A-Z go to a-z, every other byte is
    kept. It agrees with Python on every string made of ASCII characters. *)
Definition ascii_lower_char (c : ascii) : ascii :=
  let n := N_of_ascii c in
  if ((65 <=? n) && (n <=? 90))%N then ascii_of_N (n + 32) else c.

Fixpoint ascii_lower (s : string) : string :=
  match s with
  | EmptyString => EmptyString
  | String c r => String (ascii_lower_char c) (ascii_lower r)
  end.

(** ** Numbers of [get_collected_stats] *)

(** The percentage is the int [0] on one branch and a float on the other. *)
Inductive pynum : Type :=
| PyInt (n : Z)
| PyFloat (f : float).

(** Conversion of a Python int to float, for ints in the range of a list
    length (below 2^63; exact below 2^53). *)
Definition float_of_int (n : Z) : float := PrimFloat.of_uint63 (Uint63.of_Z n).

(** [a / b] on Python ints: the binary64 value nearest to the quotient. The
    operands here are list lengths, which convert exactly, so the quotient of
    the converted operands is that value. *)
Definition true_divide (a b : Z) : float :=
  PrimFloat.div (float_of_int a) (float_of_int b).

(** The dict returned by [get_collected_stats]. *)
Module Stats.
Record t : Type := Build_t {
  total : Z;
  collected : Z;
  remaining : Z;
  percentage : pynum
}.
End Stats.

(** ** JSON documents and the file system *)

(** A value as [json.load] returns it: [None], bool, int, float, str, list,
    dict (entries in insertion order). [json.dump] followed by [json.load] is
    the identity on such a value, so a well-formed file is represented by the
    value it holds; the text of the file is not modelled. *)
Inductive json : Type :=
| JNull
| JBool (b : bool)
| JInt (n : Z)
| JFloat (f : float)
| JStr (s : string)
| JList (l : list json)
| JDict (d : list (string * json)).

(** What a path holds: [Malformed] when opening, decoding or [json.load]
    raises (not JSON text, a truncated write, a directory), [Document data]
    when [json.load] returns [data]. *)
Inductive file_content : Type :=
| Malformed
| Document (data : json).

(** What the operating system does to one call of [save_data]. *)
Inductive io_fault : Type :=
| No_fault
| Makedirs_raises
| Open_raises
| Dump_raises.

(** [p[:p.rfind('/') + 1]]: the prefix of [p] up to its last slash. *)
Fixpoint head_of_path (p : string) : string :=
  match p with
  | EmptyString => EmptyString
  | String c r =>
      match head_of_path r with
      | EmptyString => if Ascii.eqb c "/" then String c EmptyString else EmptyString
      | h => String c h
      end
  end.

(** [s.rstrip('/')]. *)
Fixpoint rstrip_slash (s : string) : string :=
  match s with
  | EmptyString => EmptyString
  | String c r =>
      match rstrip_slash r with
      | EmptyString => if Ascii.eqb c "/" then EmptyString else String c EmptyString
      | r' => String c r'
      end
  end.

(** [os.path.dirname] (posixpath): the head, without its trailing slashes
    unless it is made of slashes only. *)
Definition dirname (p : string) : string :=
  let h := head_of_path p in
  match rstrip_slash h with
  | EmptyString => h
  | s => s
  end.

(** [os.makedirs(d, exist_ok=True)] raises on the empty path whatever the
    file system holds, and otherwise when the operating system refuses. *)
Definition makedirs_raises (env : io_fault) (d : string) : bool :=
  match d, env with
  | EmptyString, _ => true
  | _, Makedirs_raises => true
  | _, _ => false
  end.

(** An item as the JSON object [json.dump] writes for it: the eight keys in
    the order of the dict literal of [add_item]. *)
Definition item_keys : list string :=
  ["name"; "region"; "x"; "y"; "type"; "collected"; "date_added"; "notes"]%string.

Definition item_to_json (it : item) : json :=
  JDict [("name"%string, JStr (name it)); ("region"%string, JStr (region it));
         ("x"%string, JFloat (x it)); ("y"%string, JFloat (y it));
         ("type"%string, JStr (type it)); ("collected"%string, JBool (collected it));
         ("date_added"%string, JStr (date_added it)); ("notes"%string, JStr (notes it))].

(** The loaded values that are items of the data model: a dict of that
    shape. *)
Definition json_to_item (v : json) : option item :=
  match v with
  | JDict [(k1, JStr n); (k2, JStr r); (k3, JFloat a); (k4, JFloat b);
           (k5, JStr ty); (k6, JBool c); (k7, JStr d); (k8, JStr nt)] =>
      if bool_decide ([k1; k2; k3; k4; k5; k6; k7; k8] = item_keys)
      then Some (Item n r a b ty c d nt)
      else None
  | _ => None
  end.

Definition json_to_items (v : json) : option (list item) :=
  match v with
  | JList l => mapM json_to_item l
  | _ => None
  end.

(** ['items' in data]: key membership on a dict, element membership on a
    list, substring test on a str; [None] is the [TypeError] raised on every
    other value. *)
Definition is_items_str (v : json) : bool :=
  match v with
  | JStr s => String.eqb s "items"
  | _ => false
  end.

Definition contains_items (data : json) : option bool :=
  match data with
  | JDict d => Some (existsb (fun kv => String.eqb (fst kv) "items") d)
  | JList l => Some (existsb is_items_str l)
  | JStr s => Some (match String.index 0 "items" s with Some _ => true | None => false end)
  | _ => None
  end.

(** [d[k]] on the entries of a dict. *)
Fixpoint dict_get (k : string) (d : list (string * json)) : option json :=
  match d with
  | [] => None
  | (k', v) :: rest => if String.eqb k' k then Some v else dict_get k rest
  end.

(** [data['items']]: [None] is the exception raised (a str key on a list or
    a str is a [TypeError], an absent key a [KeyError]). *)
Definition getitem_items (data : json) : option json :=
  match data with
  | JDict d => dict_get "items" d
  | _ => None
  end.

(** Whether [len(v)] returns: it raises [TypeError] on [None], bools and
    numbers. *)
Definition has_len (v : json) : bool :=
  match v with
  | JList _ | JDict _ | JStr _ => true
  | _ => false
  end.

(** What [load_data] leaves behind: a tracker of the data model and the
    returned bool, or, when the method returns [True] with [self.items] bound
    to a value [v] that is not a list of items, that value. *)
Inductive load_outcome : Type :=
| Loaded (t : ItemTracker) (ok : bool)
| Loaded_foreign (t : ItemTracker) (v : json).

(** ** Sample data *)

Definition chest_a : item :=
  Item "Chest A" "Mondstadt" 10.0 20.0 "Сундук" false "2024-01-01 09:00:00" "".

Definition ore_b : item :=
  Item "Ore" "Liyue" 1.5 (-2.5) "Ресурс" true "2024-01-02 09:00:00" "north cliff".

Definition empty_tracker : ItemTracker := Tracker "data/items.json" [] known_regions.

Definition sample_tracker : ItemTracker :=
  Tracker "data/items.json" [chest_a; ore_b] known_regions.

Section Store.

(** Python's [str.lower]. *)
Variable lower : string -> string.

(** ** add_item *)

(** The condition of the [if] inside the loop of [add_item]
    (main.py, lines 56-59). *)
Definition similar (it : item) (name' region' : string) (x' y' : float) : bool :=
  String.eqb (lower (name it)) (lower name')
  && String.eqb (lower (region it)) (lower region')
  && within_tolerance (x it) x'
  && within_tolerance (y it) y'.

(** The [for] loop of [add_item]: the first item that makes the condition
    true stops the loop (the [return False]); [None] when the loop runs to
    its end. *)
Fixpoint find_similar (l : list item) (name' region' : string) (x' y' : float)
  : option item :=
  match l with
  | [] => None
  | it :: rest =>
      if similar it name' region' x' y' then Some it
      else find_similar rest name' region' x' y'
  end.

(** The dict literal [new_item]. *)
Definition new_item (now name' region' : string) (x' y' : float) (item_type : string)
  : item :=
  Item name' region' x' y' item_type false now EmptyString.

(** [add_item]: the tracker after the call and the returned bool. *)
Definition add_item (now : string) (t : ItemTracker)
    (name' region' : string) (x' y' : float) (item_type : string)
  : ItemTracker * bool :=
  match find_similar (items t) name' region' x' y' with
  | Some _ => (t, false)
  | None =>
      (set_items (items t ++ [new_item now name' region' x' y' item_type]) t, true)
  end.

(** ** mark_collected *)

(** [mark_collected] (main.py, lines 91-100). The index is a Python int;
    [if notes:] is true for every string but the empty one. The two
    subscript assignments mutate the dict at position [index] in place. *)
Definition mark_collected (t : ItemTracker) (index : Z) (collected' : bool)
    (notes' : string) : ItemTracker * bool :=
  if ((0 <=? index) && (index <? Z.of_nat (length (items t))))%Z then
    let i := Z.to_nat index in
    let l1 := alter (set_collected collected') i (items t) in
    let l2 := match notes' with
              | EmptyString => l1
              | _ => alter (set_notes notes') i l1
              end in
    (set_items l2 t, true)
  else (t, false).

(** What the assignments of an in-range call make of the item they reach. *)
Definition marked (c : bool) (nt : string) (it : item) : item :=
  match nt with
  | EmptyString => set_collected c it
  | _ => set_notes nt (set_collected c it)
  end.

(** ** get_all_items, get_items_by_region *)

Definition get_all_items (t : ItemTracker) : list item := items t.

(** The list comprehension of [get_items_by_region], as the loop it runs. *)
Fixpoint region_scan (l : list item) (region' : string) : list item :=
  match l with
  | [] => []
  | it :: rest =>
      if String.eqb (lower (region it)) (lower region')
      then it :: region_scan rest region'
      else region_scan rest region'
  end.

Definition get_items_by_region (t : ItemTracker) (region' : string) : list item :=
  region_scan (items t) region'.

(** ** get_collected_stats *)

(** [sum(1 for item in self.items if item['collected'])]: the running sum
    starts at 0 and gains 1 at each item whose flag is true. *)
Definition count_collected (l : list item) : Z :=
  fold_left (fun acc it => if collected it then (acc + 1)%Z else acc) l 0%Z.

Definition get_collected_stats (t : ItemTracker) : Stats.t :=
  let total := Z.of_nat (length (items t)) in
  let n := count_collected (items t) in
  Stats.Build_t total n (total - n)%Z
    (if (total >? 0)%Z
     then PyFloat (PrimFloat.mul (true_divide n total) (float_of_int 100))
     else PyInt 0).

(** ** save_data *)

(** The dict [data] built by [save_data] (main.py, lines 141-147). *)
Definition save_document (now : string) (t : ItemTracker) : json :=
  JDict [("metadata"%string,
          JDict [("save_date"%string, JStr now);
                 ("total_items"%string, JInt (Z.of_nat (length (items t))))]);
         ("items"%string, JList (map item_to_json (items t)))].

(** [save_data]: the body of the [try] runs [os.makedirs], [open(.., 'w')]
    and [json.dump] in this order; an exception in any of them is caught
    and the method returns [False]. [os.makedirs] of the empty string always
    raises; a failure after [open] leaves a truncated file behind. *)
Definition save_data (now : string) (env : io_fault) (t : ItemTracker)
    (fs : gmap string file_content) : ItemTracker * gmap string file_content * bool :=
  if makedirs_raises env (dirname (data_file t)) then (t, fs, false)
  else match env with
       | Open_raises => (t, fs, false)
       | Dump_raises => (t, <[data_file t := Malformed]> fs, false)
       | _ => (t, <[data_file t := Document (save_document now t)]> fs, true)
       end.

(** ** load_data *)

(** The body of the [try] of [load_data] once [json.load] has returned
    [data]: [None] when an exception is raised, [Some None] when the [else]
    branch is taken, [Some (Some v)] when [self.items] has been set to [v]
    and the method is about to return [True]. *)
Definition load_body (data : json) : option (option json) :=
  match contains_items data with
  | None => None
  | Some false => Some None
  | Some true =>
      match getitem_items data with
      | None => None
      | Some v => if has_len v then Some (Some v) else None
      end
  end.

(** [load_data] (main.py, lines 167-190). *)
Definition load_data (t : ItemTracker) (fs : gmap string file_content) : load_outcome :=
  match fs !! data_file t with
  | None => Loaded (set_items [] t) false
  | Some Malformed => Loaded (set_items [] t) false
  | Some (Document data) =>
      match load_body data with
      | None => Loaded (set_items [] t) false
      | Some None => Loaded (set_items [] t) false
      | Some (Some v) =>
          match json_to_items v with
          | Some l => Loaded (set_items l t) true
          | None => Loaded_foreign t v
          end
      end
  end.

(** [__init__]: the attributes are set and [load_data] is called, its
    result ignored. *)
Definition init (path : string) (fs : gmap string file_content) : load_outcome :=
  load_data (Tracker path [] known_regions) fs.

(** The near-duplicate relation in the words of the specification: equal
    names and equal regions up to case, and both coordinates closer than
    0.1. *)
Definition near_duplicate (it : item) (name' region' : string) (x' y' : float) : Prop :=
  lower (name it) = lower name'
  /\ lower (region it) = lower region'
  /\ PrimFloat.ltb (PrimFloat.abs (PrimFloat.sub (x it) x')) tolerance = true
  /\ PrimFloat.ltb (PrimFloat.abs (PrimFloat.sub (y it) y')) tolerance = true.

(** The invariant of the data model: no two items at different positions
    of the list are near-duplicates of each other. *)
Definition no_near_duplicates (l : list item) : Prop :=
  forall (i j : nat) (p q : item),
    i <> j -> l !! i = Some p -> l !! j = Some q ->
    ~ near_duplicate p (name q) (region q) (x q) (y q).

(** A JSON document without the key [items]: any value that is not a dict,
    or a dict none of whose keys is [items]. *)
Definition lacks_items_key (data : json) : Prop :=
  forall d, data = JDict d -> ~ In "items"%string (map fst d).

End Store.


(** * The callers of the store *)

(** ** The text menu of [main.py] *)

(** The list [item_types], the same in [main] (main.py, line 230) and in the
    dialog of the graphical interface. *)
Definition item_types : list string :=
  ["Сундук"; "Ресурс"; "Задание"; "Артефакт"; "Оружие"; "Другое"]%string.

(** One turn of the menu loop of [main]: the choice and the answers typed at
    the prompts of that choice. A number prompt is [None] when [int(...)] or
    [float(...)] raises [ValueError] on the answer (for the index of choice 4,
    also when the answer is empty); a text answer is the string after
    [.strip()]. The answer to the last prompt of choice 7 is the bool telling
    whether it is one of the accepted spellings of yes. *)
Inductive menu_input : Type :=
| Menu_add (region_num : option Z) (name' : string) (type_num : option Z)
    (x' y' : option float)
| Menu_list_all
| Menu_list_region (region_num : option Z)
| Menu_mark (index : option Z) (notes' : string)
| Menu_stats
| Menu_save
| Menu_exit (save_before_exit : bool)
| Menu_other.

(** [1 <= n <= len(l)] on a Python int. *)
Definition in_menu_range {A : Type} (n : Z) (l : list A) : bool :=
  ((1 <=? n) && (n <=? Z.of_nat (length l)))%Z.

(** ** The graphical interface of [genshin_gui.py] *)

(** The first entry of the region filter. *)
Definition all_regions_label : string := "Все регионы".

(** What [save_item] reads from the widgets of the dialog: the three text
    fields after [.strip()], the two coordinates as [float(...)] returns them
    ([None] when it raises [ValueError]), the notes after [.strip()] and the
    state of the check box of the edit mode. *)
Record form : Type := Form {
  form_name : string;
  form_region : string;
  form_type : string;
  form_x : option float;
  form_y : option float;
  form_notes : string;
  form_collected : bool
}.

(** [-1000 <= v <= 1000]. *)
Definition in_bounds (v : float) : bool :=
  PrimFloat.leb (-1000)%float v && PrimFloat.leb v 1000%float.

(** The validation at the head of [save_item] (genshin_gui.py, lines
    586-617): [None] when an error box is shown and the method returns. *)
Definition validate (f : form) : option (float * float) :=
  match form_name f, form_region f, form_type f with
  | EmptyString, _, _ | _, EmptyString, _ | _, _, EmptyString => None
  | _, _, _ =>
      match form_x f with
      | None => None
      | Some a =>
          if in_bounds a then
            match form_y f with
            | None => None
            | Some b => if in_bounds b then Some (a, b) else None
            end
          else None
      end
  end.

(** The condition of the search loop of the edit mode (lines 639-642): the
    strings are compared as they are, the coordinates as in [add_item]. *)
Definition same_item (it sel : item) : bool :=
  String.eqb (name it) (name sel)
  && String.eqb (region it) (region sel)
  && within_tolerance (x it) (x sel)
  && within_tolerance (y it) (y sel).

(** The search loop: the index of the first item that satisfies the
    condition, counted from [i]. *)
Fixpoint find_same (l : list item) (sel : item) (i : nat) : option nat :=
  match l with
  | [] => None
  | it :: rest => if same_item it sel then Some i else find_same rest sel (S i)
  end.

(** The seven assignments of the edit mode (lines 648-654). *)
Definition edited (f : form) (a b : float) (it : item) : item :=
  Item (form_name f) (form_region f) a b (form_type f) (form_collected f)
       (date_added it) (form_notes f).

(** The text that [update_stats] puts on the toggle button. *)
Definition toggle_button_text (s : Stats.t) : string :=
  if ((Stats.collected s =? Stats.total s) && (Stats.total s >? 0))%Z
  then "Все выполнено"
  else if (Stats.collected s =? 0)%Z then "Выполнить все"
  else "Выполнено".

Definition update_stats (t : ItemTracker) : string :=
  toggle_button_text (get_collected_stats t).

Section Interfaces.

(** Python's [str.lower]. *)
Variable lower : string -> string.

(** Choice 1 of the menu (main.py, lines 211-249): every answer that fails
    to parse, a region number out of range and an empty name end the turn
    without a call of [add_item]. *)
Definition menu_add (now : string) (t : ItemTracker) (region_num : option Z)
    (name' : string) (type_num : option Z) (x' y' : option float) : ItemTracker :=
  match region_num with
  | None => t
  | Some rn =>
      if in_menu_range rn (regions t) then
        let region' := nth (Z.to_nat (rn - 1)) (regions t) EmptyString in
        match name' with
        | EmptyString => t
        | _ =>
            match type_num with
            | None => t
            | Some tn =>
                let item_type :=
                  if in_menu_range tn item_types
                  then nth (Z.to_nat (tn - 1)) item_types EmptyString
                  else "Другое"%string in
                match x', y' with
                | Some a, Some b => fst (add_item lower now t name' region' a b item_type)
                | _, _ => t
                end
            end
        end
      else t
  end.

(** Choice 4 of the menu (main.py, lines 301-339): a positive answer marks
    as collected, a negative one as not collected, and the item reached is
    the one at the absolute value of the answer minus one. *)
Definition menu_mark (t : ItemTracker) (index : option Z) (notes' : string)
  : ItemTracker :=
  match get_all_items t with
  | [] => t
  | _ =>
      match index with
      | None => t
      | Some n =>
          if (n =? 0)%Z then t
          else
            let item_index := if (n >? 0)%Z then (n - 1)%Z else (Z.abs n - 1)%Z in
            let collected' := (n >? 0)%Z in
            if ((0 <=? item_index) && (item_index <? Z.of_nat (length (items t))))%Z
            then fst (mark_collected t item_index collected' notes')
            else t
      end
  end.

(** One turn of the [while True] loop: the tracker and the file system after
    the turn, and whether the loop goes on ([break] is reached by choice 7
    only). Choices 2, 3 and 5 only print. *)
Definition menu_step (now : string) (env : io_fault) (inp : menu_input)
    (st : ItemTracker * gmap string file_content)
  : ItemTracker * gmap string file_content * bool :=
  let (t, fs) := st in
  match inp with
  | Menu_add region_num name' type_num x' y' =>
      (menu_add now t region_num name' type_num x' y', fs, true)
  | Menu_mark index notes' => (menu_mark t index notes', fs, true)
  | Menu_save => (fst (save_data now env t fs), true)
  | Menu_exit save_before_exit =>
      match items t with
      | [] => (t, fs, false)
      | _ => if save_before_exit then (fst (save_data now env t fs), false)
             else (t, fs, false)
      end
  | Menu_list_all | Menu_list_region _ | Menu_stats | Menu_other => (t, fs, true)
  end.

(** The loop, run on the turns of a session; each turn comes with the time
    of the clock and the behaviour of the operating system at that turn. *)
Fixpoint menu_loop (turns : list (string * io_fault * menu_input))
    (st : ItemTracker * gmap string file_content)
  : ItemTracker * gmap string file_content :=
  match turns with
  | [] => st
  | (now, env, inp) :: rest =>
      let '(t, fs, go) := menu_step now env inp st in
      if go then menu_loop rest (t, fs) else (t, fs)
  end.

(** [main]: the tracker is built on the default data file, then the loop
    runs. [None] when the data file holds items outside the data model. *)
Definition cli_main (fs : gmap string file_content)
    (turns : list (string * io_fault * menu_input))
  : option (ItemTracker * gmap string file_content) :=
  match init "data/items.json" fs with
  | Loaded t _ => Some (menu_loop turns (t, fs))
  | Loaded_foreign _ _ => None
  end.

(** The local list [items] of [refresh_items], [open_edit_item_window] and
    [toggle_item_status]: all the items under the first entry of the filter,
    the items of the selected region otherwise. *)
Definition shown_items (t : ItemTracker) (selected_region : string) : list item :=
  if String.eqb selected_region all_regions_label
  then get_all_items t
  else get_items_by_region lower t selected_region.

(** The positions, in [self.items], of the dicts that [get_items_by_region]
    returns: the list it builds holds those same dicts, so an assignment to
    a key of its [k]-th element is an assignment at the [k]-th of these
    positions. *)
Fixpoint region_positions (l : list item) (region' : string) (i : nat) : list nat :=
  match l with
  | [] => []
  | it :: rest =>
      if String.eqb (lower (region it)) (lower region')
      then i :: region_positions rest region' (S i)
      else region_positions rest region' (S i)
  end.

(** The list [items] that the main window works on: all the items, or the
    items of the selected region. *)
Definition shown_positions (t : ItemTracker) (selected_region : string) : list nat :=
  if String.eqb selected_region all_regions_label
  then seq 0 (length (items t))
  else region_positions (items t) selected_region 0.

(** [items[item_index]] behind the guard [0 <= item_index < len(items)], as
    a position of the store. *)
Definition selected_position (t : ItemTracker) (selected_region : string)
    (item_index : Z) : option nat :=
  let shown := shown_positions t selected_region in
  if ((0 <=? item_index) && (item_index <? Z.of_nat (length shown)))%Z
  then shown !! Z.to_nat item_index
  else None.

(** [toggle_item_status] (genshin_gui.py, lines 338-403); [selection] is
    the row index of the selected row, [None] when no row is selected. *)
Definition toggle_item_status (t : ItemTracker) (selected_region : string)
    (selection : option Z) : ItemTracker :=
  match selection with
  | None => t
  | Some item_index =>
      match selected_position t selected_region item_index with
      | Some p =>
          set_items (alter (fun it => set_collected (negb (collected it)) it) p (items t)) t
      | None => t
      end
  end.


(** [save_item] (genshin_gui.py, lines 579-663). [target] is [None] in the
    add mode and the position of [self.item] in the edit mode. The notes of
    the form are not passed to [add_item]. *)
Definition save_item (now : string) (t : ItemTracker) (target : option nat) (f : form)
  : ItemTracker :=
  match validate f with
  | None => t
  | Some (a, b) =>
      match target with
      | None => fst (add_item lower now t (form_name f) (form_region f) a b (form_type f))
      | Some p =>
          match items t !! p with
          | None => t
          | Some sel =>
              match find_same (get_all_items t) sel 0 with
              | Some i => set_items (alter (edited f a b) i (items t)) t
              | None => t
              end
          end
      end
  end.

End Interfaces.

(** ** Predicates on items used in the properties of the callers *)

(** The fields of an item that no choice of the text menu rewrites. *)
Definition item_core (it : item) : string * string * float * float * string * string :=
  (name it, region it, x it, y it, type it, date_added it).

(** An item as choice 1 of the text menu can make it: a region of the list
    [known], a type of [item_types], a name that is not empty. *)
Definition menu_made (known : list string) (it : item) : Prop :=
  In (region it) known /\ In (type it) item_types /\ name it <> EmptyString.

(** An item with its flag negated, as [toggle_item_status] leaves it. *)
Definition flipped (it : item) : item := set_collected (negb (collected it)) it.

(** An item as the dialog of the graphical interface lets it through: the
    three texts not empty, both coordinates between -1000 and 1000. *)
Definition form_made (it : item) : Prop :=
  name it <> EmptyString /\ region it <> EmptyString /\ type it <> EmptyString
  /\ in_bounds (x it) = true /\ in_bounds (y it) = true.

(** * Properties *)

(** ** The operations on sample data *)

Example dirname_samples :
  dirname "data/items.json" = "data"%string
  /\ dirname "items.json" = ""%string
  /\ dirname "/items.json" = "/"%string
  /\ dirname "a//b/c.json" = "a//b"%string.
Proof. repeat split. Qed.

(** The comparison is the one of binary64 arithmetic: [10.1 - 10.0] and
    [0.3 - 0.2] round below [0.1]. *)
Example within_tolerance_samples :
  within_tolerance 10.0 10.05 = true
  /\ within_tolerance 10.0 10.1 = true
  /\ within_tolerance 0.3 0.2 = true
  /\ within_tolerance 10.0 10.2 = false
  /\ within_tolerance PrimFloat.nan PrimFloat.nan = false.
Proof. repeat split. Qed.

Example get_collected_stats_sample :
  get_collected_stats sample_tracker = Stats.Build_t 2 1 1 (PyFloat 50.0)
  /\ get_collected_stats empty_tracker = Stats.Build_t 0 0 0 (PyInt 0).
Proof. split; reflexivity. Qed.

(** A data file without a directory part cannot be saved: [os.makedirs("")]
    raises. *)
Example save_data_bare_file_name :
  save_data "2024-01-03 12:00:00" No_fault (Tracker "items.json" [chest_a] known_regions) ∅
  = (Tracker "items.json" [chest_a] known_regions, ∅, false).
Proof. reflexivity. Qed.

(** Documents on which the body of the [try] raises, and one that leaves the
    data model. *)
Example load_data_odd_documents :
  load_data sample_tracker {[ "data/items.json"%string := Document (JStr "my items") ]}
  = Loaded empty_tracker false
  /\ load_data sample_tracker
       {[ "data/items.json"%string := Document (JDict [("items"%string, JInt 5)]) ]}
     = Loaded empty_tracker false
  /\ load_data sample_tracker
       {[ "data/items.json"%string := Document (JDict [("items"%string, JList [])]) ]}
     = Loaded empty_tracker true
  /\ load_data sample_tracker
       {[ "data/items.json"%string := Document (JDict [("items"%string, JStr "abc")]) ]}
     = Loaded_foreign sample_tracker (JStr "abc").
Proof. repeat split. Qed.

(** ** The IEEE difference is symmetric up to sign *)

Section FloatFacts.

(** Rounding to nearest even treats both signs alike. *)
Lemma SFabs_binary_round_aux (s s' : bool) (m e : Z) (l : location) :
  SFabs (binary_round_aux prec emax s m e l)
  = SFabs (binary_round_aux prec emax s' m e l).
Proof.
  unfold binary_round_aux.
  destruct (shr_fexp prec emax m e l) as [mrs1 e1].
  destruct (shr_fexp prec emax _ e1 loc_Exact) as [mrs2 e2].
  destruct (shr_m mrs2); [reflexivity| |reflexivity].
  destruct (Z.leb e2 (emax - prec)); reflexivity.
Qed.

Lemma SFabs_binary_round (s s' : bool) (m : positive) (e : Z) :
  SFabs (binary_round prec emax s m e) = SFabs (binary_round prec emax s' m e).
Proof.
  unfold binary_round.
  destruct (shl_align m e _) as [mz ez]. apply SFabs_binary_round_aux.
Qed.

Lemma SFabs_binary_normalize_opp (m e : Z) :
  SFabs (binary_normalize prec emax (- m) e false)
  = SFabs (binary_normalize prec emax m e false).
Proof.
  destruct m; simpl; [reflexivity| |]; apply SFabs_binary_round.
Qed.

Lemma SFabs_SFsub_sym (a b : spec_float) :
  SFabs (SFsub prec emax a b) = SFabs (SFsub prec emax b a).
Proof.
  destruct a as [sa|sa| |sa ma ea], b as [sb|sb| |sb mb eb];
    try reflexivity; try (destruct sa, sb; reflexivity).
  cbv beta iota zeta delta [SFsub].
  rewrite (Z.min_comm eb ea).
  set (ez := Z.min ea eb).
  set (za := cond_Zopp sa (Z.pos (fst (shl_align ma ea ez)))).
  set (zb := cond_Zopp sb (Z.pos (fst (shl_align mb eb ez)))).
  replace (za - zb)%Z with (- (zb - za))%Z by lia.
  apply SFabs_binary_normalize_opp.
Qed.

(** [abs(a - b)] and [abs(b - a)] are the same float. *)
Lemma abs_sub_sym (a b : float) :
  PrimFloat.abs (PrimFloat.sub a b) = PrimFloat.abs (PrimFloat.sub b a).
Proof.
  apply Prim2SF_inj. rewrite !abs_spec, !sub_spec. apply SFabs_SFsub_sym.
Qed.

Lemma within_tolerance_sym (a b : float) :
  within_tolerance a b = within_tolerance b a.
Proof. unfold within_tolerance. now rewrite abs_sub_sym. Qed.

End FloatFacts.

(** ** Facts about the loop of add_item *)

Section StoreFacts.

Variable lower : string -> string.

Lemma similar_near_duplicate (it : item) (n r : string) (a b : float) :
  similar lower it n r a b = true <-> near_duplicate lower it n r a b.
Proof.
  unfold similar, near_duplicate, within_tolerance.
  rewrite !andb_true_iff, !String.eqb_eq. tauto.
Qed.

Lemma near_duplicate_sym (p q : item) :
  near_duplicate lower p (name q) (region q) (x q) (y q) ->
  near_duplicate lower q (name p) (region p) (x p) (y p).
Proof.
  unfold near_duplicate. intros (Hn & Hr & Hx & Hy).
  rewrite (abs_sub_sym (x q)), (abs_sub_sym (y q)). auto.
Qed.

Lemma find_similar_Some (l : list item) (n r : string) (a b : float) (it : item) :
  find_similar lower l n r a b = Some it ->
  In it l /\ similar lower it n r a b = true.
Proof.
  induction l as [|hd rest IH]; simpl; [discriminate|].
  destruct (similar lower hd n r a b) eqn:E.
  - intros [= <-]. auto.
  - intros H. destruct (IH H). auto.
Qed.

Lemma find_similar_None (l : list item) (n r : string) (a b : float) :
  find_similar lower l n r a b = None <->
  (forall it, In it l -> similar lower it n r a b = false).
Proof.
  induction l as [|hd rest IH]; simpl.
  - split; [intros _ it []|reflexivity].
  - destruct (similar lower hd n r a b) eqn:E.
    + split; [discriminate|]. intros H. specialize (H hd (or_introl eq_refl)). congruence.
    + rewrite IH. split.
      * intros H it [<-|Hin]; auto.
      * intros H it Hin. auto.
Qed.

(** The loop stops exactly when the list holds a near-duplicate. *)
Lemma find_similar_is_Some (l : list item) (n r : string) (a b : float) :
  is_Some (find_similar lower l n r a b) <->
  exists it, In it l /\ near_duplicate lower it n r a b.
Proof.
  split.
  - intros [it H]. apply find_similar_Some in H as [Hin Hs].
    exists it. split; [exact Hin|]. now apply similar_near_duplicate.
  - intros (it & Hin & Hnd). apply similar_near_duplicate in Hnd.
    destruct (find_similar lower l n r a b) eqn:E; [eauto|].
    rewrite find_similar_None in E. rewrite (E it Hin) in Hnd. discriminate.
Qed.

Lemma add_item_false (now : string) (t : ItemTracker) (n r : string) (a b : float)
    (ty : string) :
  snd (add_item lower now t n r a b ty) = false <->
  is_Some (find_similar lower (items t) n r a b).
Proof.
  unfold add_item. destruct (find_similar lower (items t) n r a b); simpl.
  - split; eauto.
  - split; [discriminate|]. intros [? [=]].
Qed.

Lemma add_item_true (now : string) (t : ItemTracker) (n r : string) (a b : float)
    (ty : string) :
  snd (add_item lower now t n r a b ty) = true ->
  find_similar lower (items t) n r a b = None
  /\ fst (add_item lower now t n r a b ty)
     = set_items (items t ++ [new_item now n r a b ty]) t.
Proof.
  unfold add_item. destruct (find_similar lower (items t) n r a b); simpl.
  - discriminate.
  - auto.
Qed.

End StoreFacts.

(** ** add_item *)

(** C1: a call of [add_item] returns [False] exactly when some item of the
    store is a near-duplicate of the arguments (equal names and equal regions
    up to case, both coordinates closer than 0.1); the call cannot raise, the
    model of [add_item] being a total function. In particular, once
    [add("Chest A", "Mondstadt", 10.0, 20.0, "Сундук")] has succeeded,
    [add("chest a", "mondstadt", 10.05, 20.0, "Ресурс")] is rejected. *)
Theorem add_item_rejects_iff_near_duplicate :
  (forall (lower : string -> string) (now : string) (t : ItemTracker)
          (n r : string) (a b : float) (ty : string),
      snd (add_item lower now t n r a b ty) = false <->
      exists it, In it (items t) /\ near_duplicate lower it n r a b)
  /\
  (forall (now1 now2 : string) (t : ItemTracker),
      snd (add_item ascii_lower now1 t "Chest A" "Mondstadt" 10.0 20.0 "Сундук") = true ->
      snd (add_item ascii_lower now2
             (fst (add_item ascii_lower now1 t "Chest A" "Mondstadt" 10.0 20.0 "Сундук"))
             "chest a" "mondstadt" 10.05 20.0 "Ресурс") = false).
Proof.
  split.
  - intros. rewrite add_item_false. apply find_similar_is_Some.
  - intros now1 now2 t H. apply add_item_true in H as [_ ->].
    apply add_item_false, find_similar_is_Some.
    exists (new_item now1 "Chest A" "Mondstadt" 10.0 20.0 "Сундук"). split.
    + simpl. apply in_or_app. right. left. reflexivity.
    + apply similar_near_duplicate. reflexivity.
Qed.

Lemma add_item_rejects_iff_near_duplicate_witness :
  snd (add_item ascii_lower "2024-01-01 10:00:00"
         (fst (add_item ascii_lower "2024-01-01 09:00:00" empty_tracker
                 "Chest A" "Mondstadt" 10.0 20.0 "Сундук"))
         "chest a" "mondstadt" 10.05 20.0 "Ресурс") = false.
Proof.
  apply (proj2 add_item_rejects_iff_near_duplicate
           "2024-01-01 09:00:00"%string "2024-01-01 10:00:00"%string empty_tracker).
  reflexivity.
Defined.

(** C6: when no item of the store is a near-duplicate of the arguments,
    [add_item] returns [True] and the store becomes the old item list followed
    by one record made of the arguments, with [collected = False], empty
    notes and the current timestamp as [date_added]; the old items keep their
    positions and their fields, and the other attributes of the tracker are
    untouched. *)
Theorem add_item_appends_new_record (lower : string -> string) (now : string)
    (t : ItemTracker) (n r : string) (a b : float) (ty : string) :
  (forall it, In it (items t) -> ~ near_duplicate lower it n r a b) ->
  add_item lower now t n r a b ty
  = (Tracker (data_file t) (items t ++ [Item n r a b ty false now ""]) (regions t), true).
Proof.
  intros H. unfold add_item.
  destruct (find_similar lower (items t) n r a b) as [it|] eqn:E; [|reflexivity].
  apply find_similar_Some in E as [Hin Hs].
  apply similar_near_duplicate in Hs. destruct (H it Hin Hs).
Qed.

Lemma add_item_appends_new_record_witness :
  add_item ascii_lower "2024-01-03 10:00:00" sample_tracker
    "Chest A" "Liyue" 10.0 20.0 "Сундук"
  = (Tracker "data/items.json"
       [chest_a; ore_b;
        Item "Chest A" "Liyue" 10.0 20.0 "Сундук" false "2024-01-03 10:00:00" ""]
       known_regions, true).
Proof.
  apply (add_item_appends_new_record ascii_lower _ sample_tracker).
  intros it [<-|[<-|[]]] (Hn & Hr & _).
  - vm_compute in Hr. discriminate.
  - vm_compute in Hn. discriminate.
Defined.

(** ** mark_collected *)

Section MarkFacts.

Lemma mark_collected_in_range (t : ItemTracker) (index : Z) (c : bool) (nt : string) :
  (0 <= index < Z.of_nat (length (items t)))%Z ->
  mark_collected t index c nt
  = (set_items (alter (marked c nt) (Z.to_nat index) (items t)) t, true).
Proof.
  intros [H0 H1]. unfold mark_collected.
  apply Z.leb_le in H0. apply Z.ltb_lt in H1. rewrite H0, H1. simpl.
  destruct nt as [|ch nt]; [reflexivity|].
  rewrite list_alter_alter_eq. reflexivity.
Qed.

Lemma mark_collected_out (t : ItemTracker) (index : Z) (c : bool) (nt : string) :
  (index < 0 \/ Z.of_nat (length (items t)) <= index)%Z ->
  mark_collected t index c nt = (t, false).
Proof.
  intros H. unfold mark_collected.
  destruct (0 <=? index)%Z eqn:H0; [|reflexivity].
  destruct (index <? Z.of_nat (length (items t)))%Z eqn:H1; [|reflexivity].
  apply Z.leb_le in H0. apply Z.ltb_lt in H1. lia.
Qed.

(** [mark_collected] never touches the four fields the near-duplicate
    relation reads. *)
Lemma marked_keeps_location (c : bool) (nt : string) (it : item) :
  name (marked c nt it) = name it /\ region (marked c nt it) = region it
  /\ x (marked c nt it) = x it /\ y (marked c nt it) = y it.
Proof. destruct nt; repeat split. Qed.

End MarkFacts.

(** C4: with an index out of range (negative, or at least the number of
    items) [mark_collected] returns [False] and the tracker after the call is
    the tracker before it: no field of any item changes, and the list keeps
    its length and order. *)
Theorem mark_collected_out_of_range (t : ItemTracker) (index : Z) (c : bool)
    (nt : string) :
  (index < 0 \/ index >= Z.of_nat (length (items t)))%Z ->
  mark_collected t index c nt = (t, false).
Proof.
  intros H. apply mark_collected_out. lia.
Qed.

Lemma mark_collected_out_of_range_witness :
  mark_collected sample_tracker 2 true "found" = (sample_tracker, false)
  /\ mark_collected sample_tracker (-1) true "found" = (sample_tracker, false).
Proof.
  split.
  - apply mark_collected_out_of_range. simpl. lia.
  - apply mark_collected_out_of_range. simpl. lia.
Defined.

(** C9: an in-range call with empty notes sets the [collected] flag of the
    item at that index and keeps its notes; and any in-range call, whatever
    its notes, returns [True], changes at most the fields [collected] and
    [notes] of that item, and leaves every other item, the length of the list
    and the other attributes of the tracker as they were. *)
Theorem mark_collected_frame (t : ItemTracker) (index : Z) (c : bool) (nt : string)
    (it : item) :
  (0 <= index < Z.of_nat (length (items t)))%Z ->
  items t !! Z.to_nat index = Some it ->
  let t0 := fst (mark_collected t index c "") in
  let t' := fst (mark_collected t index c nt) in
  (items t0 !! Z.to_nat index
   = Some (Item (name it) (region it) (x it) (y it) (type it) c (date_added it) (notes it)))
  /\ snd (mark_collected t index c nt) = true
  /\ (exists it', items t' !! Z.to_nat index = Some it'
        /\ name it' = name it /\ region it' = region it /\ x it' = x it /\ y it' = y it
        /\ type it' = type it /\ date_added it' = date_added it
        /\ collected it' = c
        /\ notes it' = match nt with EmptyString => notes it | _ => nt end)
  /\ (forall j, j <> Z.to_nat index -> items t' !! j = items t !! j)
  /\ length (items t') = length (items t)
  /\ data_file t' = data_file t /\ regions t' = regions t.
Proof.
  intros Hr Hit t0 t'. subst t0 t'.
  rewrite !mark_collected_in_range by assumption. simpl.
  rewrite !list_lookup_alter_eq, Hit. simpl.
  split; [reflexivity|]. split; [reflexivity|].
  split.
  - eexists. split; [reflexivity|]. destruct nt; simpl; repeat split.
  - split; [|split; [apply length_alter|split; reflexivity]].
    intros j Hj. apply list_lookup_alter_ne. congruence.
Qed.

Lemma mark_collected_frame_witness :
  items (fst (mark_collected sample_tracker 1 false "")) !! 1%nat
  = Some (Item "Ore" "Liyue" 1.5 (-2.5) "Ресурс" false "2024-01-02 09:00:00" "north cliff").
Proof.
  apply (mark_collected_frame sample_tracker 1 false "" ore_b).
  - simpl. lia.
  - reflexivity.
Defined.

(** ** The invariant of the item list *)

Section Invariant.

Variable lower : string -> string.

Lemma no_near_duplicates_nil : no_near_duplicates lower [].
Proof. intros i j p q _ H. rewrite lookup_nil in H. discriminate. Qed.

(** Appending an item that the loop of [add_item] let through. *)
Lemma no_near_duplicates_snoc (l : list item) (it : item) :
  no_near_duplicates lower l ->
  find_similar lower l (name it) (region it) (x it) (y it) = None ->
  no_near_duplicates lower (l ++ [it]).
Proof.
  intros Hinv Hnone i j p q Hij Hp Hq Hnd.
  rewrite find_similar_None in Hnone.
  assert (Hfresh : forall o, In o l ->
            ~ near_duplicate lower o (name it) (region it) (x it) (y it)).
  { intros o Ho Ho'. apply similar_near_duplicate in Ho'.
    rewrite (Hnone o Ho) in Ho'. discriminate. }
  apply lookup_snoc_Some in Hp as [[_ Hp]|[Hi <-]];
    apply lookup_snoc_Some in Hq as [[_ Hq]|[Hj <-]].
  - exact (Hinv i j p q Hij Hp Hq Hnd).
  - apply (Hfresh p); [|exact Hnd]. apply list_elem_of_In. eapply list_elem_of_lookup_2, Hp.
  - apply (Hfresh q); [|now apply near_duplicate_sym].
    apply list_elem_of_In. eapply list_elem_of_lookup_2, Hq.
  - lia.
Qed.

(** Changing fields that the relation does not read. *)
Lemma no_near_duplicates_alter (f : item -> item) (k : nat) (l : list item) :
  (forall it, name (f it) = name it /\ region (f it) = region it
              /\ x (f it) = x it /\ y (f it) = y it) ->
  no_near_duplicates lower l ->
  no_near_duplicates lower (alter f k l).
Proof.
  intros Hf Hinv i j p q Hij Hp Hq Hnd.
  assert (Hsrc : forall m o, alter f k l !! m = Some o ->
            exists o0, l !! m = Some o0 /\ name o = name o0 /\ region o = region o0
                       /\ x o = x o0 /\ y o = y o0).
  { intros m o Hm. rewrite list_lookup_alter in Hm.
    destruct (decide (k = m)) as [->|_].
    - destruct (l !! m) as [o0|]; [|discriminate]. injection Hm as <-.
      exists o0. split; [reflexivity|]. apply Hf.
    - exists o. repeat split. exact Hm. }
  destruct (Hsrc i p Hp) as (p0 & Hp0 & En & Er & Ex & Ey).
  destruct (Hsrc j q Hq) as (q0 & Hq0 & En' & Er' & Ex' & Ey').
  apply (Hinv i j p0 q0 Hij Hp0 Hq0).
  unfold near_duplicate in *. rewrite <- En, <- Er, <- Ex, <- Ey, <- En', <- Er', <- Ex', <- Ey'.
  exact Hnd.
Qed.

End Invariant.

(** C8: the invariant that no two distinct items of the store have equal
    names and equal regions up to case with both coordinates closer than 0.1
    holds of the empty store, and every [add_item] and every [mark_collected]
    preserves it: a store that satisfies it before the call satisfies it
    after the call, whatever the call returns. *)
Theorem no_near_duplicates_preserved (lower : string -> string) :
  no_near_duplicates lower []
  /\ (forall (now : string) (t : ItemTracker) (n r : string) (a b : float) (ty : string),
        no_near_duplicates lower (items t) ->
        no_near_duplicates lower (items (fst (add_item lower now t n r a b ty))))
  /\ (forall (t : ItemTracker) (index : Z) (c : bool) (nt : string),
        no_near_duplicates lower (items t) ->
        no_near_duplicates lower (items (fst (mark_collected t index c nt)))).
Proof.
  split; [apply no_near_duplicates_nil|]. split.
  - intros now t n r a b ty Hinv. unfold add_item.
    destruct (find_similar lower (items t) n r a b) eqn:E; simpl; [exact Hinv|].
    apply no_near_duplicates_snoc; assumption.
  - intros t index c nt Hinv.
    destruct (Z_lt_ge_dec index 0) as [Hneg|Hpos].
    + rewrite mark_collected_out by lia. exact Hinv.
    + destruct (Z_lt_ge_dec index (Z.of_nat (length (items t)))) as [Hlt|Hge].
      * rewrite mark_collected_in_range by lia. simpl.
        apply no_near_duplicates_alter; [|exact Hinv].
        intros it. apply marked_keeps_location.
      * rewrite mark_collected_out by lia. exact Hinv.
Qed.

Lemma no_near_duplicates_preserved_witness :
  no_near_duplicates ascii_lower
    (items (fst (mark_collected
                   (fst (add_item ascii_lower "2024-01-01 10:00:00"
                           (fst (add_item ascii_lower "2024-01-01 09:00:00" empty_tracker
                                   "Chest A" "Mondstadt" 10.0 20.0 "Сундук"))
                           "chest a" "mondstadt" 10.05 20.0 "Ресурс"))
                   0 true "found"))).
Proof.
  destruct (no_near_duplicates_preserved ascii_lower) as (Hnil & Hadd & Hmark).
  apply Hmark, Hadd, Hadd. exact Hnil.
Defined.

(** ** get_items_by_region *)

Lemma region_scan_filter (lower : string -> string) (l : list item) (r : string) :
  region_scan lower l r = filter (fun it => lower (region it) = lower r) l.
Proof.
  induction l as [|hd rest IH]; [reflexivity|].
  simpl. rewrite filter_cons, IH.
  destruct (String.eqb_spec (lower (region hd)) (lower r)) as [E|E];
    destruct (decide (lower (region hd) = lower r)); congruence.
Qed.

(** C7: [get_items_by_region(r)] is the sub-sequence of the item list made of
    the items whose region equals [r] up to case: an item is returned exactly
    when it is stored and its lowercased region is the lowercased [r], and the
    returned items come in the order (and number) in which they are stored. In
    particular every item whose region is ["Mondstadt"] is returned for
    ["mondstadt"]. *)
Theorem get_items_by_region_exact :
  (forall (lower : string -> string) (t : ItemTracker) (r : string),
      get_items_by_region lower t r
      = filter (fun it => lower (region it) = lower r) (items t)
      /\ (forall it, In it (get_items_by_region lower t r) <->
                     In it (items t) /\ lower (region it) = lower r))
  /\ (forall (t : ItemTracker) (it : item),
        In it (items t) ->
        region it = "Mondstadt"%string ->
        In it (get_items_by_region ascii_lower t "mondstadt")).
Proof.
  assert (Hmem : forall lower t r it,
             In it (get_items_by_region lower t r) <->
             In it (items t) /\ lower (region it) = lower r).
  { intros lower t r it. unfold get_items_by_region.
    rewrite region_scan_filter, <- !list_elem_of_In, list_elem_of_filter. tauto. }
  split.
  - intros lower t r. split; [apply region_scan_filter|apply Hmem].
  - intros t it Hin Hr. apply Hmem. split; [exact Hin|]. rewrite Hr. reflexivity.
Qed.

Lemma get_items_by_region_exact_witness :
  In chest_a (get_items_by_region ascii_lower sample_tracker "mondstadt").
Proof.
  apply (proj2 get_items_by_region_exact sample_tracker chest_a).
  - simpl. auto.
  - reflexivity.
Defined.

(** ** get_collected_stats *)

Lemma count_collected_from (l : list item) (acc : Z) :
  fold_left (fun n it => if collected it then (n + 1)%Z else n) l acc
  = (acc + Z.of_nat (length (filter (fun it => collected it = true) l)))%Z.
Proof.
  revert acc. induction l as [|hd rest IH]; intros acc; simpl.
  - lia.
  - rewrite IH, filter_cons. destruct (collected hd); simpl.
    + destruct (decide (true = true)); [simpl; lia|congruence].
    + destruct (decide (false = true)); [congruence|lia].
Qed.

Lemma count_collected_length (l : list item) :
  count_collected l = Z.of_nat (length (filter (fun it => collected it = true) l)).
Proof. unfold count_collected. now rewrite count_collected_from. Qed.

(** C5: [get_collected_stats] returns [total] equal to the number of items,
    [collected] equal to the number of items whose flag is true (hence
    between 0 and [total]), [remaining] equal to [total - collected], and a
    percentage that is the int [0] when [total] is 0 and otherwise the float
    [collected / total * 100], computed as Python computes it. *)
Theorem get_collected_stats_correct (t : ItemTracker) :
  let s := get_collected_stats t in
  Stats.total s = Z.of_nat (length (items t))
  /\ Stats.collected s
     = Z.of_nat (length (filter (fun it => collected it = true) (items t)))
  /\ (0 <= Stats.collected s <= Stats.total s)%Z
  /\ Stats.remaining s = (Stats.total s - Stats.collected s)%Z
  /\ Stats.percentage s
     = if (Stats.total s =? 0)%Z then PyInt 0
       else PyFloat (PrimFloat.mul
                       (PrimFloat.div (float_of_int (Stats.collected s))
                                      (float_of_int (Stats.total s)))
                       100%float).
Proof.
  simpl. rewrite count_collected_length.
  pose proof (length_filter (fun it => collected it = true) (items t)) as Hle.
  repeat split; try lia.
  destruct (items t) as [|hd rest]; reflexivity.
Qed.

(** ** save_data and load_data *)

Lemma json_to_item_to_json (it : item) : json_to_item (item_to_json it) = Some it.
Proof. destruct it. reflexivity. Qed.

Lemma json_to_items_to_json (l : list item) :
  json_to_items (JList (map item_to_json l)) = Some l.
Proof.
  simpl. apply mapM_Some.
  induction l as [|hd rest IH]; simpl; constructor.
  - apply json_to_item_to_json.
  - exact IH.
Qed.

(** What a successful [save_data] leaves at the path of the data file. *)
Lemma save_data_true (now : string) (env : io_fault) (t t1 : ItemTracker)
    (fs fs1 : gmap string file_content) :
  save_data now env t fs = (t1, fs1, true) ->
  t1 = t /\ fs1 !! data_file t = Some (Document (save_document now t)).
Proof.
  unfold save_data.
  destruct (makedirs_raises env (dirname (data_file t))); [discriminate|].
  destruct env; intros [= <- <-]; split; try reflexivity; apply lookup_insert_eq.
Qed.

Lemma load_body_save_document (now : string) (t : ItemTracker) :
  load_body (save_document now t) = Some (Some (JList (map item_to_json (items t)))).
Proof. reflexivity. Qed.

Lemma existsb_items_key (d : list (string * json)) :
  ~ In "items"%string (map fst d) ->
  existsb (fun kv => String.eqb (fst kv) "items") d = false.
Proof.
  induction d as [|[k v] rest IH]; simpl; [reflexivity|].
  intros H. destruct (String.eqb_spec k "items") as [->|_]; simpl.
  - destruct H. now left.
  - apply IH. intros Hin. apply H. now right.
Qed.

Lemma dict_get_items_key (d : list (string * json)) :
  ~ In "items"%string (map fst d) -> dict_get "items" d = None.
Proof.
  induction d as [|[k v] rest IH]; simpl; [reflexivity|].
  intros H. destruct (String.eqb_spec k "items") as [->|_].
  - destruct H. now left.
  - apply IH. intros Hin. apply H. now right.
Qed.

(** Without the key, the body of the [try] raises or takes the [else]
    branch. *)
Lemma load_body_lacks_items (data : json) :
  lacks_items_key data -> load_body data = None \/ load_body data = Some None.
Proof.
  intros H. unfold load_body.
  destruct data as [| | | | s | l | d]; simpl; auto.
  - destruct (String.index 0 "items" s); auto.
  - destruct (existsb is_items_str l); auto.
  - rewrite existsb_items_key by (apply H; reflexivity). auto.
Qed.

(** C10: [save_data] returns the tracker it was given, whether it reports
    success or failure and whatever the operating system does: the item list
    (every field of every item, the length, the order) and the path of the
    data file are the same before and after the call. *)
Theorem save_data_preserves_tracker (now : string) (env : io_fault) (t : ItemTracker)
    (fs : gmap string file_content) :
  let t' := fst (fst (save_data now env t fs)) in
  t' = t /\ items t' = items t /\ data_file t' = data_file t.
Proof.
  assert (H : fst (fst (save_data now env t fs)) = t).
  { unfold save_data.
    destruct (makedirs_raises env (dirname (data_file t))); [reflexivity|].
    destruct env; reflexivity. }
  simpl. rewrite H. auto.
Qed.

(** C2: when [save_data] succeeds and [load_data] then reads the file that
    the save wrote (by the same tracker or by any tracker with the same data
    file, the file not having been rewritten in between), [load_data]
    succeeds and the item list after it is the item list at the time of the
    save: the same items with the same eight fields, in the same order. *)
Theorem save_then_load_round_trip (now : string) (env : io_fault)
    (t t1 t2 : ItemTracker) (fs fs1 fs2 : gmap string file_content) :
  save_data now env t fs = (t1, fs1, true) ->
  data_file t2 = data_file t ->
  fs2 !! data_file t = fs1 !! data_file t ->
  load_data t1 fs1 = Loaded t true
  /\ load_data t2 fs2 = Loaded (set_items (items t) t2) true
  /\ forall t', load_data t2 fs2 = Loaded t' true -> items t' = items t.
Proof.
  intros Hsave Hpath Hsame.
  apply save_data_true in Hsave as [-> Hfile].
  assert (Hload : forall u fs', data_file u = data_file t ->
             fs' !! data_file t = fs1 !! data_file t ->
             load_data u fs' = Loaded (set_items (items t) u) true).
  { intros u fs' Hu Hfs. unfold load_data.
    rewrite Hu, Hfs, Hfile, load_body_save_document, json_to_items_to_json.
    reflexivity. }
  split; [|split].
  - rewrite (Hload t fs1) by reflexivity. destruct t; reflexivity.
  - now apply Hload.
  - intros t'. rewrite (Hload t2 fs2) by assumption. intros [= <-]. reflexivity.
Qed.

Lemma save_then_load_round_trip_witness :
  load_data sample_tracker
    (snd (fst (save_data "2024-01-03 12:00:00" No_fault sample_tracker ∅)))
  = Loaded sample_tracker true
  /\ init "data/items.json"
       (snd (fst (save_data "2024-01-03 12:00:00" No_fault sample_tracker ∅)))
     = Loaded sample_tracker true.
Proof.
  set (fs1 := snd (fst (save_data "2024-01-03 12:00:00" No_fault sample_tracker ∅))).
  assert (Hsave : save_data "2024-01-03 12:00:00" No_fault sample_tracker ∅
                  = (sample_tracker, fs1, true)) by reflexivity.
  pose proof (save_then_load_round_trip _ _ sample_tracker sample_tracker empty_tracker
                ∅ fs1 fs1 Hsave eq_refl eq_refl) as (H1 & H2 & _).
  split; [exact H1|exact H2].
Defined.

(** C3 (as the code has it): when the data file does not exist [load_data]
    raises nothing, empties the item list and returns [False]; it does the
    same when the file is malformed and when the JSON document in it has no
    key [items]. *)
Theorem load_data_resets_on_failure (t : ItemTracker) (fs : gmap string file_content) :
  (fs !! data_file t = None -> load_data t fs = Loaded (set_items [] t) false)
  /\ (fs !! data_file t = Some Malformed -> load_data t fs = Loaded (set_items [] t) false)
  /\ (forall data, fs !! data_file t = Some (Document data) -> lacks_items_key data ->
        load_data t fs = Loaded (set_items [] t) false).
Proof.
  unfold load_data. split; [|split].
  - intros ->. reflexivity.
  - intros ->. reflexivity.
  - intros data -> H. destruct (load_body_lacks_items data H) as [-> | ->]; reflexivity.
Qed.

Lemma load_data_resets_on_failure_witness :
  load_data sample_tracker ∅ = Loaded empty_tracker false
  /\ load_data sample_tracker {[ "data/items.json"%string := Malformed ]}
     = Loaded empty_tracker false
  /\ load_data sample_tracker
       {[ "data/items.json"%string := Document (JDict [("metadata"%string, JDict [])]) ]}
     = Loaded empty_tracker false.
Proof.
  split; [|split].
  - apply (proj1 (load_data_resets_on_failure sample_tracker ∅)). reflexivity.
  - apply (proj1 (proj2 (load_data_resets_on_failure sample_tracker _))). reflexivity.
  - apply (proj2 (proj2 (load_data_resets_on_failure sample_tracker _))
             (JDict [("metadata"%string, JDict [])])).
    + reflexivity.
    + intros d [= <-]. simpl. intros [H|[]]. discriminate.
Defined.

(** C3 as stated does not hold: the data file of [empty_tracker] does not
    exist in the empty file system, and [load_data] returns [False] there, not
    [True]. *)
Lemma load_data_missing_file_not_success :
  (∅ : gmap string file_content) !! data_file empty_tracker = None
  /\ load_data empty_tracker ∅ = Loaded empty_tracker false
  /\ ~ (exists t', load_data empty_tracker ∅ = Loaded t' true).
Proof.
  split; [reflexivity|]. split; [reflexivity|].
  intros [t' H]. discriminate.
Qed.


(** * Further properties of the store *)

(** ** Floats that are not numbers, floats that are *)

Lemma within_tolerance_nan_r (a : float) : within_tolerance a PrimFloat.nan = false.
Proof.
  unfold within_tolerance. rewrite ltb_spec, abs_spec, sub_spec.
  change (Prim2SF PrimFloat.nan) with S754_nan.
  unfold SF64sub, SFsub. destruct (Prim2SF a); reflexivity.
Qed.

Lemma within_tolerance_nan_l (a : float) : within_tolerance PrimFloat.nan a = false.
Proof.
  unfold within_tolerance. rewrite ltb_spec, abs_spec, sub_spec. reflexivity.
Qed.

Lemma SFsub_diag (f : spec_float) :
  match f with S754_zero _ | S754_finite _ _ _ => True | _ => False end ->
  SFsub prec emax f f = S754_zero false.
Proof.
  destruct f as [s|s| |s m e]; try contradiction; intros _.
  - destruct s; reflexivity.
  - cbv beta iota zeta delta [SFsub]. rewrite Z.sub_diag. reflexivity.
Qed.

Lemma in_bounds_finite (v : float) :
  in_bounds v = true ->
  match Prim2SF v with S754_zero _ | S754_finite _ _ _ => True | _ => False end.
Proof.
  unfold in_bounds. rewrite andb_true_iff, !leb_spec. intros [H1 H2].
  destruct (Prim2SF v) as [s|s| |s m e]; try exact I.
  - destruct s; [vm_compute in H1|vm_compute in H2]; discriminate.
  - vm_compute in H1. discriminate.
Qed.

(** A coordinate between -1000 and 1000 is closer than 0.1 to itself. *)
Lemma in_bounds_self_close (v : float) :
  in_bounds v = true -> within_tolerance v v = true.
Proof.
  intros H. apply in_bounds_finite in H.
  unfold within_tolerance. rewrite ltb_spec, abs_spec, sub_spec.
  unfold SF64sub. rewrite SFsub_diag by exact H. reflexivity.
Qed.

(** ** add_item, again *)

Section AddFacts.

Variable lower : string -> string.

Lemma find_similar_app (l1 l2 : list item) (n r : string) (a b : float) :
  find_similar lower (l1 ++ l2) n r a b
  = match find_similar lower l1 n r a b with
    | Some it => Some it
    | None => find_similar lower l2 n r a b
    end.
Proof.
  induction l1 as [|hd rest IH]; simpl; [reflexivity|].
  destruct (similar lower hd n r a b); [reflexivity|exact IH].
Qed.

Lemma similar_self (now n r : string) (a b : float) (ty : string) :
  similar lower (new_item now n r a b ty) n r a b
  = within_tolerance a a && within_tolerance b b.
Proof. unfold similar. simpl. now rewrite !String.eqb_refl. Qed.

Lemma add_item_cases (now : string) (t : ItemTracker) (n r : string) (a b : float)
    (ty : string) :
  add_item lower now t n r a b ty = (t, false)
  \/ (find_similar lower (items t) n r a b = None
      /\ add_item lower now t n r a b ty
         = (set_items (items t ++ [new_item now n r a b ty]) t, true)).
Proof.
  unfold add_item. destruct (find_similar lower (items t) n r a b); auto.
Qed.

Lemma region_scan_app (l1 l2 : list item) (q : string) :
  region_scan lower (l1 ++ l2) q = region_scan lower l1 q ++ region_scan lower l2 q.
Proof.
  induction l1 as [|hd rest IH]; simpl; [reflexivity|].
  destruct (String.eqb (lower (region hd)) (lower q)); simpl; now rewrite IH.
Qed.

End AddFacts.

(** X1: after a successful [add_item], a second call with the same name,
    region and coordinates is rejected exactly when each coordinate is closer
    than 0.1 to itself in binary64 arithmetic. *)
Theorem add_item_twice (lower : string -> string) (now1 now2 : string) (t : ItemTracker)
    (n r : string) (a b : float) (ty1 ty2 : string) :
  snd (add_item lower now1 t n r a b ty1) = true ->
  (snd (add_item lower now2 (fst (add_item lower now1 t n r a b ty1)) n r a b ty2) = false
   <-> within_tolerance a a = true /\ within_tolerance b b = true).
Proof.
  intros H. apply add_item_true in H as [Hnone ->].
  unfold add_item at 1. simpl.
  rewrite find_similar_app, Hnone. simpl. rewrite similar_self.
  destruct (within_tolerance a a), (within_tolerance b b); simpl;
    intuition congruence.
Qed.

Lemma add_item_twice_witness :
  snd (add_item ascii_lower "2024-01-03 10:00:01"
         (fst (add_item ascii_lower "2024-01-03 10:00:00" sample_tracker
                 "Lamp" "Sumeru" 3.5 4.5 "Другое"))
         "Lamp" "Sumeru" 3.5 4.5 "Другое") = false.
Proof.
  apply (add_item_twice ascii_lower "2024-01-03 10:00:00" "2024-01-03 10:00:01"
           sample_tracker "Lamp" "Sumeru" 3.5 4.5 "Другое" "Другое").
  - reflexivity.
  - split; reflexivity.
Defined.

(** X2: a call of [add_item] with a NaN coordinate is never rejected,
    whatever the store holds: no stored item is a near-duplicate of it. *)
Theorem add_item_nan_accepted (lower : string -> string) (now : string) (t : ItemTracker)
    (n r : string) (c : float) (ty : string) :
  snd (add_item lower now t n r PrimFloat.nan c ty) = true
  /\ snd (add_item lower now t n r c PrimFloat.nan ty) = true.
Proof.
  assert (Hx : forall it, similar lower it n r PrimFloat.nan c = false).
  { intros it. unfold similar. rewrite within_tolerance_nan_r.
    now rewrite andb_false_r. }
  assert (Hy : forall it, similar lower it n r c PrimFloat.nan = false).
  { intros it. unfold similar. rewrite within_tolerance_nan_r.
    now rewrite andb_false_r. }
  split.
  - destruct (add_item_cases lower now t n r PrimFloat.nan c ty) as [E|[_ ->]];
      [|reflexivity].
    assert (Hf : snd (add_item lower now t n r PrimFloat.nan c ty) = false)
      by now rewrite E.
    apply add_item_false in Hf as [it Hf].
    apply find_similar_Some in Hf as [_ Hf]. rewrite Hx in Hf. discriminate.
  - destruct (add_item_cases lower now t n r c PrimFloat.nan ty) as [E|[_ ->]];
      [|reflexivity].
    assert (Hf : snd (add_item lower now t n r c PrimFloat.nan ty) = false)
      by now rewrite E.
    apply add_item_false in Hf as [it Hf].
    apply find_similar_Some in Hf as [_ Hf]. rewrite Hy in Hf. discriminate.
Qed.

(** ** The statistics after add_item and mark_collected *)

Lemma count_collected_cons (hd : item) (rest : list item) :
  count_collected (hd :: rest) = (Z.b2z (collected hd) + count_collected rest)%Z.
Proof.
  unfold count_collected. simpl. rewrite !count_collected_from.
  destruct (collected hd); simpl; lia.
Qed.

Lemma count_collected_app (l1 l2 : list item) :
  count_collected (l1 ++ l2) = (count_collected l1 + count_collected l2)%Z.
Proof.
  induction l1 as [|hd rest IH]; simpl.
  - unfold count_collected at 2. simpl. lia.
  - rewrite !count_collected_cons, IH. lia.
Qed.

Lemma count_collected_alter (f : item -> item) (l : list item) (i : nat) (it : item) :
  l !! i = Some it ->
  count_collected (alter f i l)
  = (count_collected l - Z.b2z (collected it) + Z.b2z (collected (f it)))%Z.
Proof.
  revert i. induction l as [|hd rest IH]; intros i Hi.
  - rewrite lookup_nil in Hi. discriminate.
  - destruct i as [|i].
    + injection Hi as <-.
      change (alter f 0%nat (hd :: rest)) with (f hd :: rest).
      rewrite !count_collected_cons. lia.
    + change (alter f (S i) (hd :: rest)) with (hd :: alter f i rest).
      rewrite !count_collected_cons, (IH i Hi). lia.
Qed.

(** X3: a successful [add_item] raises [total] and [remaining] of the
    statistics by one and leaves [collected] as it was. *)
Theorem add_item_stats (lower : string -> string) (now : string) (t : ItemTracker)
    (n r : string) (a b : float) (ty : string) :
  snd (add_item lower now t n r a b ty) = true ->
  let s := get_collected_stats t in
  let s' := get_collected_stats (fst (add_item lower now t n r a b ty)) in
  Stats.total s' = (Stats.total s + 1)%Z
  /\ Stats.collected s' = Stats.collected s
  /\ Stats.remaining s' = (Stats.remaining s + 1)%Z.
Proof.
  intros H. apply add_item_true in H as [_ ->]. simpl.
  rewrite length_app, count_collected_app. simpl.
  change (count_collected [new_item now n r a b ty]) with 0%Z. lia.
Qed.

Lemma add_item_stats_witness :
  Stats.total (get_collected_stats
                 (fst (add_item ascii_lower "2024-01-03 10:00:00" sample_tracker
                         "Lamp" "Sumeru" 3.5 4.5 "Другое"))) = 3%Z.
Proof.
  apply (proj1 (add_item_stats ascii_lower "2024-01-03 10:00:00" sample_tracker
                  "Lamp" "Sumeru" 3.5 4.5 "Другое" eq_refl)).
Defined.

(** X4: an in-range [mark_collected] keeps [total]; [collected] loses one
    when the item was collected and gains one when the new flag is true, and
    [remaining] moves the other way. *)
Theorem mark_collected_stats (t : ItemTracker) (index : Z) (c : bool) (nt : string)
    (it : item) :
  (0 <= index < Z.of_nat (length (items t)))%Z ->
  items t !! Z.to_nat index = Some it ->
  let s := get_collected_stats t in
  let s' := get_collected_stats (fst (mark_collected t index c nt)) in
  Stats.total s' = Stats.total s
  /\ Stats.collected s' = (Stats.collected s - Z.b2z (collected it) + Z.b2z c)%Z
  /\ Stats.remaining s' = (Stats.remaining s + Z.b2z (collected it) - Z.b2z c)%Z.
Proof.
  intros Hr Hit. rewrite mark_collected_in_range by exact Hr. simpl.
  rewrite length_alter, (count_collected_alter _ _ _ it Hit).
  replace (collected (marked c nt it)) with c by (destruct nt; reflexivity).
  lia.
Qed.

Lemma mark_collected_stats_witness :
  Stats.collected (get_collected_stats (fst (mark_collected sample_tracker 0 true "found")))
  = 2%Z.
Proof.
  apply (proj1 (proj2 (mark_collected_stats sample_tracker 0 true "found" chest_a
                         ltac:(simpl; lia) eq_refl))).
Defined.

(** X5: after a successful [add_item] the list of a region is the list it
    was, followed by the new item when the region of the new item equals the
    asked one up to case; the list of every other region is unchanged. *)
Theorem add_item_get_items_by_region (lower : string -> string) (now : string)
    (t : ItemTracker) (n r : string) (a b : float) (ty : string) (q : string) :
  snd (add_item lower now t n r a b ty) = true ->
  get_items_by_region lower (fst (add_item lower now t n r a b ty)) q
  = get_items_by_region lower t q
    ++ (if String.eqb (lower r) (lower q) then [Item n r a b ty false now ""] else []).
Proof.
  intros H. apply add_item_true in H as [_ ->].
  unfold get_items_by_region. simpl. rewrite region_scan_app. reflexivity.
Qed.

Lemma add_item_get_items_by_region_witness :
  get_items_by_region ascii_lower
    (fst (add_item ascii_lower "2024-01-03 10:00:00" sample_tracker
            "Lamp" "LIYUE" 3.5 4.5 "Другое")) "liyue"
  = [ore_b; Item "Lamp" "LIYUE" 3.5 4.5 "Другое" false "2024-01-03 10:00:00" ""].
Proof.
  apply (add_item_get_items_by_region ascii_lower "2024-01-03 10:00:00" sample_tracker
           "Lamp" "LIYUE" 3.5 4.5 "Другое" "liyue" eq_refl).
Defined.

(** X6: [mark_collected] is idempotent: repeating a call with the same
    index, flag and notes changes nothing more, in range or out of range. *)
Theorem mark_collected_idempotent (t : ItemTracker) (index : Z) (c : bool) (nt : string) :
  mark_collected (fst (mark_collected t index c nt)) index c nt
  = (fst (mark_collected t index c nt), snd (mark_collected t index c nt)).
Proof.
  destruct (Z_lt_ge_dec index 0) as [Hneg|Hpos].
  { rewrite !(mark_collected_out t) by lia. reflexivity. }
  destruct (Z_lt_ge_dec index (Z.of_nat (length (items t)))) as [Hlt|Hge].
  - rewrite (mark_collected_in_range t) by lia. simpl.
    rewrite mark_collected_in_range by (simpl; rewrite length_alter; lia). simpl.
    unfold set_items. simpl. rewrite list_alter_alter_eq.
    f_equal. f_equal. apply list_alter_ext; [|reflexivity].
    intros o _. destruct nt; reflexivity.
  - rewrite !(mark_collected_out t) by lia. reflexivity.
Qed.

(** ** save_data and load_data, again *)

Lemma head_of_path_empty (p : string) :
  head_of_path p = EmptyString <-> ~ In "/"%char (list_ascii_of_string p).
Proof.
  induction p as [|c r IH]; simpl.
  - split; [intros _ []|reflexivity].
  - destruct (head_of_path r) eqn:E.
    + destruct (Ascii.eqb_spec c "/"%char) as [->|Hc].
      * split; [discriminate|]. intros H. destruct H. now left.
      * split; [|reflexivity]. intros _ [Hc'|Hin]; [congruence|].
        now apply (proj1 IH).
    + split; [discriminate|]. intros H. exfalso.
      assert (Hr : ~ In "/"%char (list_ascii_of_string r)) by (intros Hin; apply H; now right).
      apply IH in Hr. discriminate.
Qed.

Lemma dirname_empty (p : string) :
  dirname p = EmptyString <-> ~ In "/"%char (list_ascii_of_string p).
Proof.
  rewrite <- head_of_path_empty. unfold dirname.
  destruct (rstrip_slash (head_of_path p)) eqn:E.
  - reflexivity.
  - split; [discriminate|]. intros H. rewrite H in E. discriminate.
Qed.

(** X7: [save_data] returns [True] exactly when no step of it is refused by
    the operating system and the path of the data file contains a slash; for
    a path without a slash [os.makedirs] is called on the empty string and
    raises, so the call returns [False] and writes nothing, whatever the
    operating system would do. *)
Theorem save_data_success_iff (now : string) (env : io_fault) (t : ItemTracker)
    (fs : gmap string file_content) :
  (snd (save_data now env t fs) = true <->
   env = No_fault /\ In "/"%char (list_ascii_of_string (data_file t)))
  /\ (~ In "/"%char (list_ascii_of_string (data_file t)) ->
      save_data now env t fs = (t, fs, false)).
Proof.
  pose proof (dirname_empty (data_file t)) as Hd.
  unfold save_data, makedirs_raises.
  destruct (dirname (data_file t)) eqn:E.
  - assert (Hno : ~ In "/"%char (list_ascii_of_string (data_file t)))
      by (apply Hd; reflexivity).
    simpl. split; [|reflexivity]. split; [discriminate|]. intros [_ H]. contradiction.
  - assert (Hyes : In "/"%char (list_ascii_of_string (data_file t))).
    { destruct (in_dec ascii_dec "/"%char (list_ascii_of_string (data_file t)))
        as [Hin|Hout]; [exact Hin|]. apply Hd in Hout. discriminate. }
    split; [|intros H; contradiction].
    destruct env; simpl; split; try discriminate; try (intros [[=] _]); auto.
Qed.

Lemma save_data_success_iff_witness :
  save_data "2024-01-03 12:00:00" No_fault (Tracker "items.json" [chest_a] known_regions) ∅
  = (Tracker "items.json" [chest_a] known_regions, ∅, false).
Proof.
  apply (proj2 (save_data_success_iff "2024-01-03 12:00:00" No_fault
                  (Tracker "items.json" [chest_a] known_regions) ∅)).
  simpl. intros H. repeat (destruct H as [H|H]; [discriminate|]). exact H.
Defined.





(** * Properties of the text menu *)

Section MenuFacts.

Variable lower : string -> string.

Lemma save_data_tracker (now : string) (env : io_fault) (t : ItemTracker)
    (fs : gmap string file_content) :
  fst (fst (save_data now env t fs)) = t.
Proof.
  unfold save_data.
  destruct (makedirs_raises env (dirname (data_file t))); [reflexivity|].
  destruct env; reflexivity.
Qed.

Lemma in_menu_range_nth (n : Z) (l : list string) :
  in_menu_range n l = true -> In (nth (Z.to_nat (n - 1)) l EmptyString) l.
Proof.
  unfold in_menu_range. rewrite andb_true_iff, Z.leb_le, Z.leb_le. intros [H1 H2].
  apply nth_In. lia.
Qed.

(** What choice 1 does to the tracker: nothing, or one call of [add_item]
    with a known region, a listed type and a name that is not empty. *)
Lemma menu_add_effect (now : string) (t : ItemTracker) (region_num : option Z)
    (n : string) (type_num : option Z) (a b : option float) :
  menu_add lower now t region_num n type_num a b = t
  \/ exists r a' b' ty,
       In r (regions t) /\ In ty item_types /\ n <> EmptyString
       /\ menu_add lower now t region_num n type_num a b
          = fst (add_item lower now t n r a' b' ty).
Proof.
  unfold menu_add.
  destruct region_num as [rn|]; [|now left].
  destruct (in_menu_range rn (regions t)) eqn:Hr; [|now left].
  destruct n as [|ch n]; [now left|].
  destruct type_num as [tn|]; [|now left].
  destruct a as [a'|]; [|now left]. destruct b as [b'|]; [|now left].
  right. eexists _, a', b', _. split; [apply in_menu_range_nth, Hr|].
  split; [|split; [discriminate|reflexivity]].
  destruct (in_menu_range tn item_types) eqn:Ht.
  - apply in_menu_range_nth, Ht.
  - simpl. auto 10.
Qed.

(** What choice 4 does to the tracker: nothing, or one call of
    [mark_collected]. *)
Lemma menu_mark_effect (t : ItemTracker) (index : option Z) (nt : string) :
  menu_mark t index nt = t
  \/ exists i c, menu_mark t index nt = fst (mark_collected t i c nt).
Proof.
  unfold menu_mark. destruct (get_all_items t); [now left|].
  destruct index as [n|]; [|now left].
  destruct (n =? 0)%Z; [now left|].
  match goal with |- context [if ?g then _ else _] => destruct g end; [|now left].
  right. eauto.
Qed.

(** Induction on the turns of a session: a property of the tracker kept by
    the calls that the menu makes holds at the end of the session. *)
Lemma menu_loop_invariant (P : ItemTracker -> Prop) :
  (forall now t n r a b ty,
      P t -> In r (regions t) -> In ty item_types -> n <> EmptyString ->
      P (fst (add_item lower now t n r a b ty))) ->
  (forall t i c nt, P t -> P (fst (mark_collected t i c nt))) ->
  forall turns t fs, P t -> P (fst (menu_loop lower turns (t, fs))).
Proof.
  intros Hadd Hmark turns.
  induction turns as [|[[now env] inp] rest IH]; intros t fs Ht; [exact Ht|].
  simpl. destruct inp as [rn n tn a b| |rn|idx nt| | |sv|]; simpl;
    try (apply IH; exact Ht).
  - apply IH.
    destruct (menu_add_effect now t rn n tn a b) as [->|(r & a' & b' & ty & H1 & H2 & H3 & ->)];
      [exact Ht|]. now apply Hadd.
  - apply IH. destruct (menu_mark_effect t idx nt) as [->|(i & c & ->)]; [exact Ht|].
    now apply Hmark.
  - pose proof (save_data_tracker now env t fs) as Hs.
    destruct (save_data now env t fs) as [[t1 fs1] ok]. simpl in *. subst t1.
    apply IH, Ht.
  - destruct (items t) eqn:E; [exact Ht|].
    destruct sv; [|exact Ht].
    pose proof (save_data_tracker now env t fs) as Hs.
    destruct (save_data now env t fs) as [[t1 fs1] ok]. simpl in *. subst t1. exact Ht.
Qed.

Lemma add_item_keeps_invariant (now : string) (t : ItemTracker) (n r : string)
    (a b : float) (ty : string) :
  no_near_duplicates lower (items t) ->
  no_near_duplicates lower (items (fst (add_item lower now t n r a b ty))).
Proof.
  intros Hinv. destruct (add_item_cases lower now t n r a b ty) as [->|[Hnone ->]];
    [exact Hinv|]. simpl. apply no_near_duplicates_snoc; assumption.
Qed.

Lemma mark_collected_items (t : ItemTracker) (index : Z) (c : bool) (nt : string) :
  items (fst (mark_collected t index c nt)) = items t
  \/ items (fst (mark_collected t index c nt))
     = alter (marked c nt) (Z.to_nat index) (items t).
Proof.
  destruct (Z_lt_ge_dec index 0) as [Hneg|Hpos].
  { left. now rewrite mark_collected_out by lia. }
  destruct (Z_lt_ge_dec index (Z.of_nat (length (items t)))) as [Hlt|Hge].
  - right. now rewrite mark_collected_in_range by lia.
  - left. now rewrite mark_collected_out by lia.
Qed.

Lemma mark_collected_keeps_invariant (t : ItemTracker) (index : Z) (c : bool)
    (nt : string) :
  no_near_duplicates lower (items t) ->
  no_near_duplicates lower (items (fst (mark_collected t index c nt))).
Proof.
  intros Hinv. destruct (mark_collected_items t index c nt) as [->| ->]; [exact Hinv|].
  apply no_near_duplicates_alter; [|exact Hinv]. intros it. apply marked_keeps_location.
Qed.

Lemma mark_collected_regions (t : ItemTracker) (index : Z) (c : bool) (nt : string) :
  regions (fst (mark_collected t index c nt)) = regions t.
Proof.
  unfold mark_collected.
  destruct ((0 <=? index) && (index <? Z.of_nat (length (items t))))%Z; reflexivity.
Qed.

Lemma map_item_core_alter_marked (c : bool) (nt : string) (i : nat) (l : list item) :
  map item_core (alter (marked c nt) i l) = map item_core l.
Proof.
  revert i. induction l as [|hd rest IH]; intros i; [reflexivity|].
  destruct i as [|i].
  - change (alter (marked c nt) 0%nat (hd :: rest)) with (marked c nt hd :: rest).
    simpl. f_equal. destruct nt; reflexivity.
  - change (alter (marked c nt) (S i) (hd :: rest))
      with (hd :: alter (marked c nt) i rest).
    simpl. now rewrite IH.
Qed.

End MenuFacts.

(** X10: choice 4 of the menu counts the items from 1: an answer [n] with
    [1 <= |n| <= len(items)] rewrites the item at position [|n| - 1], as
    collected when [n] is positive and as not collected when it is negative,
    with the notes typed (kept when empty); the answer 0, an answer beyond the
    list and an answer that is not a number change nothing. *)
Theorem menu_mark_reaches (t : ItemTracker) (nt : string) :
  (forall n : Z,
      (1 <= Z.abs n <= Z.of_nat (length (items t)))%Z ->
      menu_mark t (Some n) nt
      = set_items (alter (marked (0 <? n)%Z nt) (Z.to_nat (Z.abs n - 1)) (items t)) t)
  /\ (forall n : Z,
        (n = 0 \/ Z.abs n > Z.of_nat (length (items t)))%Z -> menu_mark t (Some n) nt = t)
  /\ menu_mark t None nt = t.
Proof.
  split; [|split].
  - intros n Hn. unfold menu_mark, get_all_items.
    destruct (items t) as [|hd rest] eqn:E; [simpl in Hn; lia|]. rewrite <- E in Hn |- *.
    destruct (Z.eqb_spec n 0) as [->|Hn0]; [simpl in Hn; lia|].
    rewrite Z.gtb_ltb. destruct (Z.ltb_spec 0 n) as [Hpos|Hneg].
    + replace (Z.abs n - 1)%Z with (n - 1)%Z by lia.
      rewrite mark_collected_in_range by lia.
      destruct (0 <=? n - 1)%Z eqn:H0; [|apply Z.leb_gt in H0; lia].
      destruct (n - 1 <? Z.of_nat (length (items t)))%Z eqn:H1;
        [reflexivity|apply Z.ltb_ge in H1; lia].
    + rewrite mark_collected_in_range by lia.
      destruct (0 <=? Z.abs n - 1)%Z eqn:H0; [|apply Z.leb_gt in H0; lia].
      destruct (Z.abs n - 1 <? Z.of_nat (length (items t)))%Z eqn:H1;
        [reflexivity|apply Z.ltb_ge in H1; lia].
  - intros n Hn. unfold menu_mark, get_all_items.
    destruct (items t) as [|hd rest] eqn:E; [reflexivity|]. rewrite <- E in Hn |- *.
    destruct (Z.eqb_spec n 0) as [->|Hn0]; [reflexivity|].
    destruct Hn as [Hn|Hn]; [contradiction|].
    destruct (n >? 0)%Z eqn:Hg.
    + rewrite Z.gtb_ltb in Hg. apply Z.ltb_lt in Hg.
      destruct (n - 1 <? Z.of_nat (length (items t)))%Z eqn:H1;
        [apply Z.ltb_lt in H1; lia|]. now rewrite andb_false_r.
    + destruct (Z.abs n - 1 <? Z.of_nat (length (items t)))%Z eqn:H1;
        [apply Z.ltb_lt in H1; lia|]. now rewrite andb_false_r.
  - unfold menu_mark. destruct (get_all_items t); reflexivity.
Qed.

Lemma menu_mark_reaches_witness :
  menu_mark sample_tracker (Some (-2)%Z) ""
  = Tracker "data/items.json"
      [chest_a; Item "Ore" "Liyue" 1.5 (-2.5) "Ресурс" false "2024-01-02 09:00:00" "north cliff"]
      known_regions.
Proof.
  apply (proj1 (menu_mark_reaches sample_tracker "") (-2)%Z). simpl. lia.
Defined.

(** X11: a session of the text menu keeps the invariant of the item list:
    when no two items of the store are near-duplicates before the first turn,
    none are after the last, whatever is typed and whatever the operating
    system does to the saves. *)
Theorem menu_loop_keeps_invariant (lower : string -> string)
    (turns : list (string * io_fault * menu_input)) (t : ItemTracker)
    (fs : gmap string file_content) :
  no_near_duplicates lower (items t) ->
  no_near_duplicates lower (items (fst (menu_loop lower turns (t, fs)))).
Proof.
  apply (menu_loop_invariant lower (fun u => no_near_duplicates lower (items u))).
  - intros now u n r a b ty Hu _ _ _. now apply add_item_keeps_invariant.
  - intros u i c nt Hu. now apply mark_collected_keeps_invariant.
Qed.

Lemma menu_loop_keeps_invariant_witness :
  no_near_duplicates ascii_lower
    (items (fst (menu_loop ascii_lower
                   [("2024-01-03 10:00:00"%string, No_fault,
                     Menu_add (Some 1%Z) "Chest A" (Some 1%Z) (Some 10.05%float) (Some 20.0%float));
                    ("2024-01-03 10:01:00"%string, No_fault, Menu_mark (Some 1%Z) "found");
                    ("2024-01-03 10:02:00"%string, No_fault, Menu_exit true)]
                   (empty_tracker, ∅)))).
Proof.
  apply menu_loop_keeps_invariant. apply no_near_duplicates_nil.
Defined.

(** X12: a session of the text menu never removes, reorders or renames an
    item: at the end the store holds the items it held at the start, at the
    same positions and with the same name, region, coordinates, type and
    date, followed by the items added during the session; only the flag
    [collected] and the notes of an item can have changed. *)
Theorem menu_loop_never_deletes (lower : string -> string)
    (turns : list (string * io_fault * menu_input)) (t : ItemTracker)
    (fs : gmap string file_content) :
  exists added : list item,
    map item_core (items (fst (menu_loop lower turns (t, fs))))
    = map item_core (items t) ++ map item_core added.
Proof.
  apply (menu_loop_invariant lower
           (fun u => exists added,
                map item_core (items u) = map item_core (items t) ++ map item_core added)).
  - intros now u n r a b ty [added Hu] _ _ _.
    destruct (add_item_cases lower now u n r a b ty) as [->|[_ ->]]; simpl.
    + now exists added.
    + exists (added ++ [new_item now n r a b ty]).
      rewrite !map_app, Hu, <- app_assoc. reflexivity.
  - intros u i c nt [added Hu]. exists added.
    destruct (mark_collected_items u i c nt) as [->| ->]; [exact Hu|].
    now rewrite map_item_core_alter_marked.
  - exists []. simpl. now rewrite app_nil_r.
Qed.

(** X13: started where the data file does not exist, [main] ends with a
    store in which every item has one of the known regions, one of the six
    listed types and a name that is not empty, and in which no two items are
    near-duplicates. *)
Theorem cli_main_fresh_store (lower : string -> string)
    (fs : gmap string file_content) (turns : list (string * io_fault * menu_input)) :
  fs !! "data/items.json"%string = None ->
  exists (t' : ItemTracker) (fs' : gmap string file_content),
    cli_main lower fs turns = Some (t', fs')
    /\ regions t' = known_regions
    /\ Forall (menu_made known_regions) (items t')
    /\ no_near_duplicates lower (items t').
Proof.
  intros Hfs. unfold cli_main, init, load_data. simpl. rewrite Hfs.
  set (t0 := set_items [] (Tracker "data/items.json" [] known_regions)).
  destruct (menu_loop lower turns (t0, fs)) as [t' fs'] eqn:E.
  exists t', fs'. split; [reflexivity|].
  assert (Et : t' = fst (menu_loop lower turns (t0, fs))) by now rewrite E.
  rewrite Et. clear E Et.
  apply (menu_loop_invariant lower
           (fun u => regions u = known_regions
                     /\ Forall (menu_made known_regions) (items u)
                     /\ no_near_duplicates lower (items u))).
  - intros now u n r a b ty (Hr & Hu & Hd) Hin Hty Hn.
    split; [|split; [|now apply add_item_keeps_invariant]].
    + destruct (add_item_cases lower now u n r a b ty) as [->|[_ ->]]; assumption.
    + destruct (add_item_cases lower now u n r a b ty) as [->|[_ ->]]; simpl;
        [exact Hu|].
      apply Forall_app. split; [exact Hu|].
      constructor; [|constructor]. rewrite Hr in Hin. now split.
  - intros u i c nt (Hr & Hu & Hd). rewrite mark_collected_regions.
    split; [exact Hr|]. split; [|now apply mark_collected_keeps_invariant].
    destruct (mark_collected_items u i c nt) as [->| ->]; [exact Hu|].
    apply List.Forall_forall. intros o Ho. rewrite <- list_elem_of_In in Ho.
    apply list_elem_of_lookup in Ho as [k Hk].
    rewrite list_lookup_alter in Hk.
    rewrite List.Forall_forall in Hu.
    destruct (decide (Z.to_nat i = k)) as [->|_].
    + destruct (items u !! k) as [o0|] eqn:Ek; [|discriminate]. injection Hk as <-.
      assert (Ho0 : menu_made known_regions o0).
      { apply Hu. rewrite <- list_elem_of_In. eapply list_elem_of_lookup_2, Ek. }
      destruct Ho0 as (A & B & C). destruct nt; repeat split; assumption.
    + apply Hu. rewrite <- list_elem_of_In. eapply list_elem_of_lookup_2, Hk.
  - split; [reflexivity|]. split; [constructor|apply no_near_duplicates_nil].
Qed.

Lemma cli_main_fresh_store_witness :
  exists (t' : ItemTracker) (fs' : gmap string file_content),
    cli_main ascii_lower ∅
      [("2024-01-03 10:00:00"%string, No_fault,
        Menu_add (Some 2%Z) "Ore" (Some 9%Z) (Some 1.5%float) (Some 2.5%float));
       ("2024-01-03 10:02:00"%string, No_fault, Menu_exit true)] = Some (t', fs')
    /\ regions t' = known_regions
    /\ Forall (menu_made known_regions) (items t')
    /\ no_near_duplicates ascii_lower (items t').
Proof.
  apply cli_main_fresh_store. apply lookup_empty.
Defined.


(** * Properties of the graphical interface *)

Section WindowFacts.

Variable lower : string -> string.

Lemma region_positions_alter (f : item -> item) (r : string) (l : list item) (p i : nat) :
  (forall it, region (f it) = region it) ->
  region_positions lower (alter f p l) r i = region_positions lower l r i.
Proof.
  intros Hf. revert p i. induction l as [|hd rest IH]; intros p i; [reflexivity|].
  destruct p as [|p].
  - change (alter f 0%nat (hd :: rest)) with (f hd :: rest). simpl. now rewrite Hf.
  - change (alter f (S p) (hd :: rest)) with (hd :: alter f p rest). simpl.
    now rewrite IH.
Qed.

Lemma region_positions_length (r : string) (l : list item) (i : nat) :
  length (region_positions lower l r i) = length (region_scan lower l r).
Proof.
  revert i. induction l as [|hd rest IH]; intros i; [reflexivity|]. simpl.
  destruct (String.eqb (lower (region hd)) (lower r)); simpl; now rewrite IH.
Qed.

(** The [k]-th position is the place, in the store, of the [k]-th item of
    the region, and a change of that item that keeps its region is seen at
    row [k] of the list of the region. *)
Lemma region_positions_row (f : item -> item) (r : string) (l : list item)
    (i k q : nat) :
  (forall it, region (f it) = region it) ->
  region_positions lower l r i !! k = Some q ->
  exists p, q = (i + p)%nat
            /\ is_Some (l !! p)
            /\ l !! p = region_scan lower l r !! k
            /\ region_scan lower (alter f p l) r = alter f k (region_scan lower l r).
Proof.
  intros Hf. revert i k. induction l as [|hd rest IH]; intros i k Hq.
  - simpl in Hq. rewrite lookup_nil in Hq. discriminate.
  - simpl in Hq. simpl region_scan.
    destruct (String.eqb (lower (region hd)) (lower r)) eqn:E.
    + destruct k as [|k].
      * injection Hq as <-. exists 0%nat. split; [lia|]. split; [eauto|].
        split; [reflexivity|].
        change (alter f 0%nat (hd :: rest)) with (f hd :: rest). simpl.
        now rewrite Hf, E.
      * destruct (IH (S i) k Hq) as (p & -> & Hs & Hl & Ha).
        exists (S p). split; [lia|]. split; [exact Hs|]. split; [exact Hl|].
        change (alter f (S p) (hd :: rest)) with (hd :: alter f p rest). simpl.
        now rewrite E, Ha.
    + destruct (IH (S i) k Hq) as (p & -> & Hs & Hl & Ha).
      exists (S p). split; [lia|]. split; [exact Hs|]. split; [exact Hl|].
      change (alter f (S p) (hd :: rest)) with (hd :: alter f p rest). simpl.
      now rewrite E, Ha.
Qed.

Lemma shown_positions_length (t : ItemTracker) (r : string) :
  length (shown_positions lower t r) = length (shown_items lower t r).
Proof.
  unfold shown_positions, shown_items, get_items_by_region, get_all_items.
  destruct (String.eqb r all_regions_label).
  - apply length_seq.
  - apply region_positions_length.
Qed.

Lemma shown_positions_alter (f : item -> item) (t : ItemTracker) (r : string) (p : nat) :
  (forall it, region (f it) = region it) ->
  shown_positions lower (set_items (alter f p (items t)) t) r = shown_positions lower t r.
Proof.
  intros Hf. unfold shown_positions. simpl.
  destruct (String.eqb r all_regions_label).
  - now rewrite length_alter.
  - now apply region_positions_alter.
Qed.

(** The row [k] of the list that the window shows and the position of its
    item in the store. *)
Lemma shown_positions_row (f : item -> item) (t : ItemTracker) (r : string) (k p : nat) :
  (forall it, region (f it) = region it) ->
  shown_positions lower t r !! k = Some p ->
  is_Some (items t !! p)
  /\ items t !! p = shown_items lower t r !! k
  /\ shown_items lower (set_items (alter f p (items t)) t) r
     = alter f k (shown_items lower t r).
Proof.
  intros Hf. unfold shown_positions, shown_items, get_items_by_region, get_all_items.
  simpl. destruct (String.eqb r all_regions_label).
  - intros Hk. apply lookup_seq in Hk as [-> Hlt]. simpl.
    split; [now apply lookup_lt_is_Some|]. split; reflexivity.
  - intros Hk. destruct (region_positions_row f r (items t) 0 k p Hf Hk)
      as (p' & -> & Hs & Hl & Ha). simpl. auto.
Qed.

Lemma selected_position_row (t : ItemTracker) (r : string) (k : nat) :
  k < length (shown_items lower t r) ->
  exists p, selected_position lower t r (Z.of_nat k) = Some p
            /\ shown_positions lower t r !! k = Some p.
Proof.
  intros Hk. unfold selected_position. rewrite shown_positions_length, Nat2Z.id.
  destruct (0 <=? Z.of_nat k)%Z eqn:H0; [|apply Z.leb_gt in H0; lia].
  destruct (Z.of_nat k <? Z.of_nat (length (shown_items lower t r)))%Z eqn:H1;
    [|apply Z.ltb_ge in H1; lia].
  simpl. rewrite <- shown_positions_length in Hk.
  apply lookup_lt_is_Some in Hk as [p Hp]. eauto.
Qed.

Lemma flipped_region (it : item) : region (flipped it) = region it.
Proof. reflexivity. Qed.

Lemma flipped_flipped (it : item) : flipped (flipped it) = it.
Proof. destruct it as [? ? ? ? ? c ? ?]. unfold flipped. simpl. now rewrite negb_involutive. Qed.

End WindowFacts.

Lemma alter_as_insert (f : item -> item) (l : list item) (k : nat) (it : item) :
  l !! k = Some it -> alter f k l = <[k := f it]> l.
Proof.
  revert k. induction l as [|hd rest IH]; intros k Hk.
  - rewrite lookup_nil in Hk. discriminate.
  - destruct k as [|k].
    + injection Hk as <-. reflexivity.
    + change (alter f (S k) (hd :: rest)) with (hd :: alter f k rest).
      change (<[S k := f it]> (hd :: rest)) with (hd :: <[k := f it]> rest).
      now rewrite (IH k Hk).
Qed.

(** X14: [toggle_item_status] on row [k] of the list that the window shows
    (all the items, or the items of the selected region) negates the flag
    [collected] of the item of that row and of no other: the shown list and
    the store differ from what they were at that one item only, and the count
    of collected items moves by one, up when the item was not collected and
    down when it was. *)
Theorem toggle_item_status_row (lower : string -> string) (t : ItemTracker)
    (r : string) (k : nat) (it : item) :
  shown_items lower t r !! k = Some it ->
  let t' := toggle_item_status lower t r (Some (Z.of_nat k)) in
  shown_items lower t' r = <[k := flipped it]> (shown_items lower t r)
  /\ (exists p, items t !! p = Some it /\ items t' = <[p := flipped it]> (items t))
  /\ data_file t' = data_file t /\ regions t' = regions t
  /\ Stats.total (get_collected_stats t') = Stats.total (get_collected_stats t)
  /\ Stats.collected (get_collected_stats t')
     = (Stats.collected (get_collected_stats t) + (if collected it then -1 else 1))%Z.
Proof.
  intros Hk.
  destruct (selected_position_row lower t r k) as (p & Hsel & Hp).
  { apply lookup_lt_is_Some. eauto. }
  destruct (shown_positions_row lower flipped t r k p flipped_region Hp) as (_ & Hl & Ha).
  rewrite Hk in Hl.
  unfold toggle_item_status. rewrite Hsel. fold flipped. cbv zeta.
  split. { rewrite Ha. now apply alter_as_insert. }
  split. { exists p. split; [exact Hl|]. simpl. now apply alter_as_insert. }
  split; [reflexivity|]. split; [reflexivity|]. simpl.
  rewrite length_alter, (count_collected_alter _ _ _ it Hl). split; [reflexivity|].
  unfold flipped. simpl. destruct (collected it); simpl; lia.
Qed.

Lemma toggle_item_status_row_witness :
  shown_items ascii_lower (toggle_item_status ascii_lower sample_tracker "liyue" (Some 0%Z))
    "liyue"
  = [Item "Ore" "Liyue" 1.5 (-2.5) "Ресурс" false "2024-01-02 09:00:00" "north cliff"].
Proof.
  apply (proj1 (toggle_item_status_row ascii_lower sample_tracker "liyue" 0 ore_b eq_refl)).
Defined.

(** X15: [toggle_item_status] undoes itself: two calls on the same row under
    the same filter give the tracker back as it was, whatever the filter and
    the row (a row outside the list, or no selected row, changes nothing). *)
Theorem toggle_item_status_twice (lower : string -> string) (t : ItemTracker)
    (r : string) (selection : option Z) :
  toggle_item_status lower (toggle_item_status lower t r selection) r selection = t.
Proof.
  destruct selection as [i|]; [|reflexivity].
  unfold toggle_item_status at 2.
  destruct (selected_position lower t r i) as [p|] eqn:Hsel.
  - fold flipped.
    assert (Hsel' : selected_position lower (set_items (alter flipped p (items t)) t) r i
                    = Some p).
    { unfold selected_position in *.
      now rewrite (shown_positions_alter lower flipped t r p flipped_region). }
    unfold toggle_item_status. rewrite Hsel'. fold flipped. simpl.
    rewrite list_alter_alter_eq.
    rewrite list_alter_id by (intros o; apply flipped_flipped).
    destruct t; reflexivity.
  - unfold toggle_item_status. now rewrite Hsel.
Qed.

(** ** The dialog *)

Lemma validate_Some (f : form) (a b : float) :
  validate f = Some (a, b) ->
  form_name f <> EmptyString /\ form_region f <> EmptyString
  /\ form_type f <> EmptyString
  /\ form_x f = Some a /\ form_y f = Some b
  /\ in_bounds a = true /\ in_bounds b = true.
Proof.
  unfold validate.
  destruct (form_name f); [discriminate|].
  destruct (form_region f); [discriminate|].
  destruct (form_type f); [discriminate|].
  destruct (form_x f) as [a'|]; [|discriminate].
  destruct (in_bounds a') eqn:Ha; [|discriminate].
  destruct (form_y f) as [b'|]; [|discriminate].
  destruct (in_bounds b') eqn:Hb; [|discriminate].
  intros [= <- <-]. repeat split; try discriminate; assumption.
Qed.

Lemma find_same_Some (l : list item) (sel : item) (i q : nat) :
  find_same l sel i = Some q ->
  exists p it, q = (i + p)%nat /\ l !! p = Some it /\ same_item it sel = true.
Proof.
  revert i. induction l as [|hd rest IH]; intros i; simpl; [discriminate|].
  destruct (same_item hd sel) eqn:E.
  - intros [= <-]. exists 0%nat, hd. split; [lia|]. auto.
  - intros H. destruct (IH (S i) H) as (p & it & -> & Hp & Hs).
    exists (S p), it. split; [lia|]. auto.
Qed.

Lemma find_same_None (l : list item) (sel : item) (i : nat) :
  find_same l sel i = None ->
  forall p it, l !! p = Some it -> same_item it sel = false.
Proof.
  revert i. induction l as [|hd rest IH]; intros i; simpl.
  - intros _ p it Hp. rewrite lookup_nil in Hp. discriminate.
  - destruct (same_item hd sel) eqn:E; [discriminate|].
    intros H [|p] it Hp.
    + injection Hp as <-. exact E.
    + exact (IH (S i) H p it Hp).
Qed.

Lemma same_item_near_duplicate (lower : string -> string) (it sel : item) :
  same_item it sel = true ->
  near_duplicate lower it (name sel) (region sel) (x sel) (y sel).
Proof.
  unfold same_item, near_duplicate, within_tolerance.
  rewrite !andb_true_iff, !String.eqb_eq. intros [[[-> ->] Hx] Hy]. auto.
Qed.

(** Under the invariant, the search of the edit mode finds the selected
    item itself when each of its coordinates is closer than 0.1 to itself. *)
Lemma find_same_selected (lower : string -> string) (l : list item) (p : nat)
    (sel : item) :
  no_near_duplicates lower l ->
  l !! p = Some sel ->
  within_tolerance (x sel) (x sel) = true ->
  within_tolerance (y sel) (y sel) = true ->
  find_same l sel 0 = Some p.
Proof.
  intros Hinv Hp Hx Hy.
  destruct (find_same l sel 0) as [q|] eqn:E.
  - apply find_same_Some in E as (p' & it & -> & Hp' & Hs). simpl.
    destruct (decide (p' = p)) as [->|Hne]; [reflexivity|].
    destruct (Hinv p' p it sel Hne Hp' Hp). now apply same_item_near_duplicate.
  - pose proof (find_same_None l sel 0 E p sel Hp) as Hs.
    unfold same_item in Hs. rewrite !String.eqb_refl, Hx, Hy in Hs. discriminate.
Qed.

(** X16: [save_item] lets through only items with a name, a region and a
    type that are not empty and coordinates between -1000 and 1000: a store
    whose items are all so keeps the property under [save_item], in the add
    mode and in the edit mode. *)
Theorem save_item_keeps_form_made (lower : string -> string) (now : string)
    (t : ItemTracker) (target : option nat) (f : form) :
  Forall form_made (items t) ->
  Forall form_made (items (save_item lower now t target f)).
Proof.
  intros Ht. unfold save_item.
  destruct (validate f) as [[a b]|] eqn:Hv; [|exact Ht].
  apply validate_Some in Hv as (Hn & Hr & Hty & _ & _ & Ha & Hb).
  destruct target as [p|].
  - destruct (items t !! p) as [sel|]; [|exact Ht].
    destruct (find_same (get_all_items t) sel 0) as [i|]; [|exact Ht]. simpl.
    apply List.Forall_forall. intros o Ho. rewrite <- list_elem_of_In in Ho.
    apply list_elem_of_lookup in Ho as [k Hk]. rewrite list_lookup_alter in Hk.
    rewrite List.Forall_forall in Ht.
    destruct (decide (i = k)) as [->|_].
    + destruct (items t !! k) as [o0|]; [|discriminate]. injection Hk as <-.
      repeat split; assumption.
    + apply Ht. rewrite <- list_elem_of_In. eapply list_elem_of_lookup_2, Hk.
  - destruct (add_item_cases lower now t (form_name f) (form_region f) a b (form_type f))
      as [->|[_ ->]]; [exact Ht|]. simpl.
    apply Forall_app. split; [exact Ht|]. constructor; [|constructor].
    repeat split; assumption.
Qed.

Lemma save_item_keeps_form_made_witness :
  Forall form_made
    (items (save_item ascii_lower "2024-01-03 10:00:00" empty_tracker None
              (Form "Lamp" "Sumeru" "Другое" (Some 3.5%float) (Some 4.5%float) "dim" false))).
Proof.
  apply save_item_keeps_form_made. constructor.
Defined.

(** X17: in the add mode a form submitted twice adds at most one item: the
    second [save_item] leaves the tracker as the first one left it. *)
Theorem save_item_add_twice (lower : string -> string) (now1 now2 : string)
    (t : ItemTracker) (f : form) :
  save_item lower now2 (save_item lower now1 t None f) None f
  = save_item lower now1 t None f.
Proof.
  unfold save_item.
  destruct (validate f) as [[a b]|] eqn:Hv; [|reflexivity].
  apply validate_Some in Hv as (_ & _ & _ & _ & _ & Ha & Hb).
  apply in_bounds_self_close in Ha. apply in_bounds_self_close in Hb.
  unfold add_item.
  destruct (find_similar lower (items t) (form_name f) (form_region f) a b) eqn:E; simpl.
  - now rewrite E.
  - rewrite find_similar_app, E. simpl. now rewrite similar_self, Ha, Hb.
Qed.

(** X18: when no two items of the store are near-duplicates and the
    coordinates of the selected item are numbers closer than 0.1 to
    themselves, the edit mode of [save_item] with a valid form rewrites the
    selected item and no other: name, region, coordinates, type, flag and
    notes come from the form, the date is kept. *)
Theorem save_item_edit_selected (lower : string -> string) (now : string)
    (t : ItemTracker) (p : nat) (sel : item) (f : form) (a b : float) :
  no_near_duplicates lower (items t) ->
  items t !! p = Some sel ->
  within_tolerance (x sel) (x sel) = true ->
  within_tolerance (y sel) (y sel) = true ->
  validate f = Some (a, b) ->
  save_item lower now t (Some p) f
  = Tracker (data_file t)
      (<[p := Item (form_name f) (form_region f) a b (form_type f) (form_collected f)
                   (date_added sel) (form_notes f)]> (items t))
      (regions t).
Proof.
  intros Hinv Hp Hx Hy Hv. unfold save_item. rewrite Hv, Hp.
  unfold get_all_items. rewrite (find_same_selected lower _ p sel Hinv Hp Hx Hy).
  unfold set_items. f_equal. exact (alter_as_insert (edited f a b) (items t) p sel Hp).
Qed.

Lemma sample_tracker_no_near_duplicates :
  no_near_duplicates ascii_lower (items sample_tracker).
Proof.
  intros [|[|i]] [|[|j]] p q Hij Hp Hq (Hn & _); simpl in Hp, Hq;
    try congruence; try discriminate;
    injection Hp as <-; injection Hq as <-; vm_compute in Hn; discriminate.
Qed.

Lemma save_item_edit_selected_witness :
  save_item ascii_lower "2024-01-03 10:00:00" sample_tracker (Some 1%nat)
    (Form "Iron ore" "Liyue" "Ресурс" (Some 1.5%float) (Some 3.0%float) "" false)
  = Tracker "data/items.json"
      [chest_a; Item "Iron ore" "Liyue" 1.5 3.0 "Ресурс" false "2024-01-02 09:00:00" ""]
      known_regions.
Proof.
  apply (save_item_edit_selected ascii_lower "2024-01-03 10:00:00" sample_tracker 1 ore_b
           (Form "Iron ore" "Liyue" "Ресурс" (Some 1.5%float) (Some 3.0%float) "" false)
           1.5%float 3.0%float sample_tracker_no_near_duplicates);
    reflexivity.
Defined.

Lemma tolerance_finite :
  exists m e, Prim2SF tolerance = S754_finite false m e.
Proof. vm_compute. eauto. Qed.

Example within_tolerance_not_numbers :
  within_tolerance PrimFloat.nan PrimFloat.nan = false
  /\ within_tolerance PrimFloat.infinity PrimFloat.infinity = false
  /\ within_tolerance PrimFloat.neg_infinity PrimFloat.neg_infinity = false.
Proof. repeat split. Qed.

(** A float that is not closer than 0.1 to itself (NaN, an infinity) is not
    closer than 0.1 to any float. *)
Lemma not_self_close_far (v a : float) :
  within_tolerance v v = false -> within_tolerance a v = false.
Proof.
  unfold within_tolerance. rewrite !ltb_spec, !abs_spec, !sub_spec.
  destruct tolerance_finite as (m & e & ->). unfold SF64sub.
  destruct (Prim2SF v) as [sv|sv| |sv mv ev] eqn:Ev.
  - rewrite SFsub_diag by exact I. discriminate.
  - intros _. destruct (Prim2SF a) as [sa|sa| |sa ma ea]; try reflexivity;
      destruct sa, sv; reflexivity.
  - intros _. destruct (Prim2SF a); reflexivity.
  - rewrite SFsub_diag by exact I. discriminate.
Qed.

(** X19: an item one of whose coordinates is not closer than 0.1 to itself
    (a NaN, which [float] reads from the answer [nan] of the text menu) cannot
    be edited: the search of the edit mode finds no item and [save_item]
    leaves the tracker unchanged, whatever the form holds. *)
Theorem save_item_edit_not_found (lower : string -> string) (now : string)
    (t : ItemTracker) (p : nat) (sel : item) (f : form) :
  items t !! p = Some sel ->
  within_tolerance (x sel) (x sel) = false \/ within_tolerance (y sel) (y sel) = false ->
  save_item lower now t (Some p) f = t.
Proof.
  intros Hp Hfar. unfold save_item.
  destruct (validate f) as [[a b]|]; [|reflexivity]. rewrite Hp.
  destruct (find_same (get_all_items t) sel 0) as [q|] eqn:E; [|reflexivity].
  apply find_same_Some in E as (p' & it & _ & _ & Hs).
  unfold same_item in Hs. rewrite !andb_true_iff in Hs. destruct Hs as [[_ Hx] Hy].
  destruct Hfar as [H|H].
  - rewrite (not_self_close_far _ (x it) H) in Hx. discriminate.
  - rewrite (not_self_close_far _ (y it) H) in Hy. discriminate.
Qed.

Lemma save_item_edit_not_found_witness :
  save_item ascii_lower "2024-01-03 10:00:00"
    (Tracker "data/items.json"
       [Item "Lost" "Natlan" PrimFloat.nan 5.0 "Другое" false "2024-01-02 09:00:00" ""]
       known_regions)
    (Some 0%nat)
    (Form "Found" "Natlan" "Другое" (Some 4.0%float) (Some 5.0%float) "" true)
  = Tracker "data/items.json"
      [Item "Lost" "Natlan" PrimFloat.nan 5.0 "Другое" false "2024-01-02 09:00:00" ""]
      known_regions.
Proof.
  apply (save_item_edit_not_found ascii_lower "2024-01-03 10:00:00" _ 0
           (Item "Lost" "Natlan" PrimFloat.nan 5.0 "Другое" false "2024-01-02 09:00:00" "")).
  - reflexivity.
  - left. reflexivity.
Defined.

(** X20: the edit mode does not keep the invariant of the item list: in a
    store without near-duplicates, editing one item into the name, the region
    and the coordinates of another one is accepted, and leaves two
    near-duplicates in the store. *)
Theorem save_item_edit_breaks_invariant (lower : string -> string) (now : string)
    (t : ItemTracker) (i j : nat) (p q : item) (f : form) :
  i <> j ->
  items t !! i = Some p ->
  items t !! j = Some q ->
  no_near_duplicates lower (items t) ->
  within_tolerance (x q) (x q) = true ->
  within_tolerance (y q) (y q) = true ->
  form_name f = name p ->
  form_region f = region p ->
  validate f = Some (x p, y p) ->
  ~ no_near_duplicates lower (items (save_item lower now t (Some j) f)).
Proof.
  intros Hij Hp Hq Hinv Hx Hy Hn Hr Hv Hinv'.
  unfold save_item in Hinv'. rewrite Hv, Hq in Hinv'. unfold get_all_items in Hinv'.
  rewrite (find_same_selected lower _ j q Hinv Hq Hx Hy) in Hinv'. simpl in Hinv'.
  apply validate_Some in Hv as (_ & _ & _ & _ & _ & Ha & Hb).
  apply in_bounds_self_close in Ha. apply in_bounds_self_close in Hb.
  apply (Hinv' i j p (edited f (x p) (y p) q) Hij).
  - rewrite list_lookup_alter_ne by congruence. exact Hp.
  - rewrite list_lookup_alter_eq, Hq. reflexivity.
  - unfold near_duplicate. simpl. rewrite Hn, Hr. unfold within_tolerance in Ha, Hb. auto.
Qed.

Lemma save_item_edit_breaks_invariant_witness :
  ~ no_near_duplicates ascii_lower
      (items (save_item ascii_lower "2024-01-03 10:00:00" sample_tracker (Some 1%nat)
                (Form "Chest A" "Mondstadt" "Сундук" (Some 10.0%float) (Some 20.0%float)
                      "" false))).
Proof.
  apply (save_item_edit_breaks_invariant ascii_lower "2024-01-03 10:00:00" sample_tracker
           0 1 chest_a ore_b); try reflexivity.
  - lia.
  - exact sample_tracker_no_near_duplicates.
Defined.

(** ** The label of the toggle button *)

Lemma count_collected_bounds (l : list item) :
  (0 <= count_collected l <= Z.of_nat (length l))%Z.
Proof.
  rewrite count_collected_length.
  pose proof (length_filter (fun it => collected it = true) l). lia.
Qed.

Lemma count_collected_all (l : list item) :
  count_collected l = Z.of_nat (length l) <-> Forall (fun it => collected it = true) l.
Proof.
  induction l as [|hd rest IH].
  - split; [constructor|reflexivity].
  - rewrite count_collected_cons. pose proof (count_collected_bounds rest) as Hb.
    simpl length. split.
    + intros H. destruct (collected hd) eqn:E; simpl in H; [|lia].
      constructor; [exact E|]. apply IH. lia.
    + intros H. inversion H as [|? ? Hc Hrest]; subst. rewrite Hc. simpl.
      apply IH in Hrest. lia.
Qed.

Lemma count_collected_none (l : list item) :
  count_collected l = 0%Z <-> Forall (fun it => collected it = false) l.
Proof.
  induction l as [|hd rest IH].
  - split; [constructor|reflexivity].
  - rewrite count_collected_cons. pose proof (count_collected_bounds rest) as Hb. split.
    + intros H. destruct (collected hd) eqn:E; simpl in H; [lia|].
      constructor; [exact E|]. apply IH. lia.
    + intros H. inversion H as [|? ? Hc Hrest]; subst. rewrite Hc. simpl.
      apply IH in Hrest. lia.
Qed.

(** X21: the toggle button reads "Все выполнено" exactly when the store is
    not empty and every item is collected, "Выполнить все" exactly when no
    item is collected (the empty store included), and "Выполнено" in every
    other case. *)
Theorem update_stats_label (t : ItemTracker) :
  (update_stats t = "Все выполнено"%string <->
   items t <> [] /\ Forall (fun it => collected it = true) (items t))
  /\ (update_stats t = "Выполнить все"%string <->
      Forall (fun it => collected it = false) (items t))
  /\ (update_stats t = "Выполнено"%string <->
      ~ Forall (fun it => collected it = true) (items t)
      /\ ~ Forall (fun it => collected it = false) (items t)).
Proof.
  unfold update_stats, toggle_button_text. simpl.
  pose proof (count_collected_all (items t)) as Hall.
  pose proof (count_collected_none (items t)) as Hnone.
  pose proof (count_collected_bounds (items t)) as Hb.
  assert (Hlen : items t = [] <-> Z.of_nat (length (items t)) = 0%Z).
  { destruct (items t); simpl; split; try reflexivity; try discriminate; lia. }
  destruct (Z.eqb_spec (count_collected (items t)) (Z.of_nat (length (items t)))) as [E|E];
    destruct (Z.gtb_spec (Z.of_nat (length (items t))) 0) as [G|G];
    destruct (Z.eqb_spec (count_collected (items t)) 0) as [Z0|Z0]; simpl;
    intuition (try discriminate; try reflexivity; try lia).
  match goal with
  | H : items t = [] -> False, H' : _ = 0%Z -> items t = [] |- _ =>
      exfalso; apply H, H'; lia
  end.
Qed.

(** * From one run to the next *)

(** X22: what the text menu saves on exit is what the next run starts
    with: when the store is not empty, the answer to the last prompt is yes
    and the operating system lets the save through, the turn ends the loop,
    and a tracker built afterwards on the same data file loads the same
    items in the same order. *)
Theorem menu_exit_then_restart (lower : string -> string) (now : string)
    (t : ItemTracker) (fs : gmap string file_content) :
  items t <> [] ->
  data_file t = "data/items.json"%string ->
  exists fs' : gmap string file_content,
    menu_step lower now No_fault (Menu_exit true) (t, fs) = (t, fs', false)
    /\ init "data/items.json" fs'
       = Loaded (Tracker "data/items.json" (items t) known_regions) true.
Proof.
  intros Hne Hpath.
  exists (<[data_file t := Document (save_document now t)]> fs). split.
  - unfold menu_step. destruct (items t) eqn:E; [congruence|].
    unfold save_data. rewrite Hpath. reflexivity.
  - unfold init, load_data. simpl. rewrite Hpath, lookup_insert_eq.
    rewrite load_body_save_document, json_to_items_to_json. reflexivity.
Qed.

Lemma menu_exit_then_restart_witness :
  exists fs' : gmap string file_content,
    menu_step ascii_lower "2024-01-03 12:00:00" No_fault (Menu_exit true) (sample_tracker, ∅)
    = (sample_tracker, fs', false)
    /\ init "data/items.json" fs' = Loaded sample_tracker true.
Proof.
  apply (menu_exit_then_restart ascii_lower "2024-01-03 12:00:00" sample_tracker ∅).
  - discriminate.
  - reflexivity.
Defined.


